(** * StockDataProvider: cache, failover and normalisation

    A shallow embedding of [src/utils/api_handler.py].  The class
    [StockDataProvider] resolves a ticker to a record of daily prices: it
    looks at a cache file first, then asks Alpha Vantage over HTTP, then
    Yahoo Finance, and writes what it got back to the cache file.

    Python values are embedded as the type [value]; statements that can
    raise live in an error monad [res], and the methods of the class in a
    monad [M] that threads the file system and records every call that
    leaves the process.  What Python's builtins, [json], [requests],
    [yfinance], the clock and the disk answer is a parameter of the model
    ([runtime] and [world]); the calls to [logger] have no effect on the
    result and are left out. *)

From Stdlib Require Import ZArith QArith String Ascii DecimalString List Bool.
From Stdlib Require Import Sorted Permutation Lia.
From stdpp Require Import base gmap strings.

Set Warnings "-register-all".

Open Scope string_scope.
Open Scope list_scope.
Open Scope Z_scope.

(** ** Exceptions and fallible expressions *)

(** The exception classes the code can meet.  Every handler in the source is
    [except Exception], so the class never changes control flow. *)
Inductive exn : Type :=
| TypeError | ValueError | AttributeError | KeyError | OverflowError
| OSError | RequestException | JSONDecodeError.

Inductive res (A : Type) : Type :=
| Ok (a : A)
| Raise (e : exn).
Arguments Ok {A} a.
Arguments Raise {A} e.

Definition res_bind {A B : Type} (r : res A) (k : A -> res B) : res B :=
  match r with
  | Ok a => k a
  | Raise e => Raise e
  end.

Declare Scope res_scope.
Delimit Scope res_scope with res.
Notation "x <~ r ;; k" := (res_bind r (fun x => k))
  (at level 100, r at next level, right associativity) : res_scope.

Fixpoint res_map {A B : Type} (f : A -> res B) (l : list A) : res (list B) :=
  match l with
  | [] => Ok []
  | x :: l' =>
      (y <~ f x ;;
       ys <~ res_map f l' ;;
       Ok (y :: ys))%res
  end.

(** ** Python values *)

Section Values.

(** Python's [float] (and numpy's [float64]) is kept abstract. *)
Context {float : Type}.

(** The values that flow through the provider: what [response.json()] and
    [json.load] return, and what the provider builds.  A [dict] is kept as
    its list of items in insertion order. *)
Inductive value : Type :=
| VNone
| VBool (b : bool)
| VInt (z : Z)
| VFloat (f : float)
| VStr (s : string)
| VList (l : list value)
| VDict (items : list (string * value)).

Fixpoint assoc (k : string) (items : list (string * value)) : option value :=
  match items with
  | [] => None
  | (k', v) :: items' => if String.eqb k' k then Some v else assoc k items'
  end.

(** [d[k] = v] on the items of a dict: replace in place, or append. *)
Fixpoint assoc_set (k : string) (v : value) (items : list (string * value))
  : list (string * value) :=
  match items with
  | [] => [(k, v)]
  | (k', v') :: items' =>
      if String.eqb k' k then (k, v) :: items'
      else (k', v') :: assoc_set k v items'
  end.

(** [x.get(k, default)]; only a dict has the method. *)
Definition py_get (x : value) (k : string) (default : value) : res value :=
  match x with
  | VDict items =>
      match assoc k items with
      | Some v => Ok v
      | None => Ok default
      end
  | _ => Raise AttributeError
  end.

(** [x.items()]. *)
Definition py_items (x : value) : res (list (string * value)) :=
  match x with
  | VDict items => Ok items
  | _ => Raise AttributeError
  end.

Definition is_str (k : string) (v : value) : bool :=
  match v with
  | VStr s => String.eqb s k
  | _ => false
  end.

(** [needle in hay] for two strings. *)
Fixpoint substring_of (needle hay : string) : bool :=
  String.prefix needle hay
  || match hay with
     | EmptyString => false
     | String _ hay' => substring_of needle hay'
     end.

(** [k in x] for a string [k]: key membership on a dict, element
    membership on a list, substring on a string; the other values are not
    containers. *)
Definition py_in (k : string) (x : value) : res bool :=
  match x with
  | VDict items => Ok (bool_decide (is_Some (assoc k items)))
  | VList l => Ok (existsb (is_str k) l)
  | VStr s => Ok (substring_of k s)
  | _ => Raise TypeError
  end.

(** What Python's builtins and the [json] module do; the provider only
    calls them. *)
Inductive dump_outcome : Type :=
| Dumped (text : string)         (* the whole document was produced *)
| DumpFails (written : string).  (* raised after writing [written] *)

Record runtime : Type := {
  float_of_int : Z -> res float;        (* float(n) *)
  float_of_str : string -> res float;   (* float(s) *)
  int_of_float : float -> res Z;        (* int(x) *)
  int_of_str : string -> res Z;         (* int(s) *)
  float_nonzero : float -> bool;        (* bool(x) *)
  json_dumps : value -> dump_outcome;   (* the text json.dump produces *)
  json_loads : string -> res value      (* json.load on that text *)
}.

Variable rt : runtime.

(** [bool(x)], as [if x] and [not x] use it. *)
Definition truthy (x : value) : bool :=
  match x with
  | VNone => false
  | VBool b => b
  | VInt z => negb (z =? 0)
  | VFloat f => float_nonzero rt f
  | VStr s => negb (String.eqb s "")
  | VList l => match l with [] => false | _ => true end
  | VDict items => match items with [] => false | _ => true end
  end.

(** [float(x)]. *)
Definition py_float (x : value) : res float :=
  match x with
  | VFloat f => Ok f
  | VInt z => float_of_int rt z
  | VBool b => float_of_int rt (if b then 1 else 0)
  | VStr s => float_of_str rt s
  | _ => Raise TypeError
  end.

(** [int(x)]. *)
Definition py_int (x : value) : res Z :=
  match x with
  | VInt z => Ok z
  | VBool b => Ok (if b then 1 else 0)
  | VFloat f => int_of_float rt f
  | VStr s => int_of_str rt s
  | _ => Raise TypeError
  end.

End Values.

Arguments value : clear implicits.
Arguments runtime : clear implicits.

(** ** Strings: case folding, paths and dates *)

(** [c.isascii()] and [s.isascii()]. *)
Definition is_ascii (c : ascii) : bool := (nat_of_ascii c <? 128)%nat.

Definition isascii (s : string) : bool :=
  forallb is_ascii (list_ascii_of_string s).

(** [s.lower()] for a text of ASCII characters: the letters A to Z become a
    to z and every other character stays (the path CPython takes for such a
    text).  Beyond ASCII [str.lower] follows the case tables of Unicode,
    which are no part of the model: what is proved of the case mapping is
    proved for the texts [isascii] accepts. *)
Definition lower_ascii (c : ascii) : ascii :=
  let n := nat_of_ascii c in
  if ((65 <=? n) && (n <=? 90))%nat then ascii_of_nat (n + 32) else c.

Fixpoint lower (s : string) : string :=
  match s with
  | EmptyString => EmptyString
  | String c s' => String (lower_ascii c) (lower s')
  end.

Definition starts_with_sep (s : string) : bool :=
  match s with
  | String "/" _ => true
  | _ => false
  end.

Fixpoint ends_with_sep (s : string) : bool :=
  match s with
  | EmptyString => false
  | String c EmptyString => Ascii.eqb c "/"
  | String _ s' => ends_with_sep s'
  end.

(** [os.path.join(a, b)] on POSIX: an absolute [b] replaces [a]. *)
Definition path_join (a b : string) : string :=
  if starts_with_sep b then b
  else if String.eqb a "" || ends_with_sep a then a ++ b
  else a ++ "/" ++ b.

(** A calendar date, as carried by a pandas [Timestamp]. *)
Record timestamp : Type := {
  year : nat;
  month : nat;
  day : nat
}.

Definition digit (n : nat) : ascii := ascii_of_nat (48 + n mod 10).

Definition two_digits (n : nat) : string :=
  String (digit (n / 10)) (String (digit n) EmptyString).

Definition four_digits (n : nat) : string :=
  String (digit (n / 1000)) (String (digit (n / 100)) (two_digits n)).

(** [t.strftime("%Y-%m-%d")]. *)
Definition strftime_ymd (t : timestamp) : string :=
  four_digits (year t) ++ "-" ++ two_digits (month t) ++ "-" ++ two_digits (day t).

(** ** The world outside the process *)

(** A file of the cache directory: its modification time in seconds since
    the epoch, and its text. *)
Record file : Type := {
  mtime : Q;
  content : string
}.

(** Every call that leaves the process, in the order it is made. *)
Inductive event : Type :=
| HttpGet (url : string) (params : list (string * string))
| YfHistory (ticker period : string)
| YfInfo (ticker : string)
| OpenRead (path : string)
| OpenWrite (path : string).

Section World.

Context {float : Type}.

(** What [requests.get] comes back with: no response at all, or a status
    code and what [response.json()] then gives. *)
Inductive http_outcome : Type :=
| NoResponse
| Response (status_code : Z) (json : res (value float)).

Record response : Type := {
  status_code : Z;
  json : res (value float)
}.

(** One row of the frame [stock.history] returns, as [iterrows] gives it: the
    date of the index and a Series of floats, the volume among them. *)
Record bar : Type := {
  bar_date : timestamp;
  bar_open : float;
  bar_high : float;
  bar_low : float;
  bar_close : float;
  bar_volume : float
}.

(** The behaviour of the remote sources, the clock and the disk during one
    call of [get_stock_data]. *)
Record world : Type := {
  clock : Q;                     (* time.time() *)
  write_clock : Q;               (* the time a written file is stamped with *)
  today : timestamp;             (* pd.Timestamp.now() *)
  can_read : string -> bool;     (* open(path, 'r') succeeds *)
  can_write : string -> bool;    (* open(path, 'w') succeeds *)
  write_fault : string -> string -> option string;
                                 (* writing the text fails, leaving a part *)
  requests_get : string -> list (string * string) -> http_outcome;
  yf_history : string -> string -> res (list bar);
  yf_info : string -> res (list (string * value float))
}.

End World.

Arguments http_outcome : clear implicits.
Arguments response : clear implicits.
Arguments bar : clear implicits.
Arguments world : clear implicits.

(** The attributes [__init__] sets on [self]: the key as given (the caller
    passes the environment variable, or the empty string), the duration as an
    integer number of seconds, and the cache directory. *)
Record provider : Type := {
  alpha_vantage_key : option string;
  cache_duration : Z;
  cache_dir : string
}.

(** ** The monad of the methods *)

(** A method takes the files of the disk and gives a value or an exception,
    the files it leaves, and the calls it made. *)
Definition M (A : Type) : Type :=
  gmap string file -> res A * gmap string file * list event.

Definition ret {A : Type} (a : A) : M A :=
  fun fs => (Ok a, fs, []).

Definition bind {A B : Type} (m : M A) (k : A -> M B) : M B :=
  fun fs =>
    match m fs with
    | (Ok a, fs1, t1) =>
        match k a fs1 with
        | (r, fs2, t2) => (r, fs2, t1 ++ t2)
        end
    | (Raise e, fs1, t1) => (Raise e, fs1, t1)
    end.

(** [try: m  except Exception as e: h e]. *)
Definition try_except {A : Type} (m : M A) (h : exn -> M A) : M A :=
  fun fs =>
    match m fs with
    | (Ok a, fs1, t1) => (Ok a, fs1, t1)
    | (Raise e, fs1, t1) =>
        match h e fs1 with
        | (r, fs2, t2) => (r, fs2, t1 ++ t2)
        end
    end.

(** A fallible expression with no effect. *)
Definition lift {A : Type} (r : res A) : M A :=
  fun fs => (r, fs, []).

Declare Scope M_scope.
Delimit Scope M_scope with M.
Notation "x <- m ;; k" := (bind m (fun x => k))
  (at level 100, m at next level, right associativity) : M_scope.
Notation "m ;;; k" := (bind m (fun _ => k))
  (at level 100, right associativity) : M_scope.

(** ** StockDataProvider *)

Section StockDataProvider.

Context {float : Type}.
Variable rt : runtime float.
Variable w : world float.
Variable self : provider.

Local Open Scope M_scope.

(** *** Calls to the outside *)

(** [os.path.exists(path)]. *)
Definition path_exists (path : string) : M bool :=
  fun fs => (Ok (bool_decide (is_Some (fs !! path))), fs, []).

(** [os.path.getmtime(path)]. *)
Definition getmtime (path : string) : M Q :=
  fun fs =>
    match fs !! path with
    | Some f => (Ok (mtime f), fs, [])
    | None => (Raise OSError, fs, [])
    end.

(** [with open(path, 'r') as f: json.load(f)]. *)
Definition load_json (path : string) : M (value float) :=
  fun fs =>
    match fs !! path with
    | Some f =>
        if can_read w path
        then (json_loads rt (content f), fs, [OpenRead path])
        else (Raise OSError, fs, [OpenRead path])
    | None => (Raise OSError, fs, [OpenRead path])
    end.

Definition written (text : string) : file :=
  {| mtime := write_clock w; content := text |}.

(** [with open(path, 'w') as f: json.dump(data, f)].  Opening truncates
    the file; a failure after that leaves what was written so far. *)
Definition dump_json (path : string) (data : value float) : M unit :=
  fun fs =>
    if can_write w path then
      match json_dumps rt data with
      | Dumped text =>
          match write_fault w path text with
          | None => (Ok tt, <[path := written text]> fs, [OpenWrite path])
          | Some part =>
              (Raise OSError, <[path := written part]> fs, [OpenWrite path])
          end
      | DumpFails part =>
          (Raise TypeError, <[path := written part]> fs, [OpenWrite path])
      end
    else (Raise OSError, fs, [OpenWrite path]).

(** [requests.get(url, params=params)]. *)
Definition http_get (url : string) (params : list (string * string))
  : M (response float) :=
  fun fs =>
    match requests_get w url params with
    | NoResponse => (Raise RequestException, fs, [HttpGet url params])
    | Response st body =>
        (Ok {| status_code := st; json := body |}, fs, [HttpGet url params])
    end.

(** [yf.Ticker(ticker).history(period=period)]; the frame is its list of
    rows, and [history.empty] is the empty list. *)
Definition history (ticker period : string) : M (list (bar float)) :=
  fun fs => (yf_history w ticker period, fs, [YfHistory ticker period]).

(** [stock.info], fetched once for the nine fields read from it. *)
Definition info (ticker : string) : M (list (string * value float)) :=
  fun fs => (yf_info w ticker, fs, [YfInfo ticker]).

(** *** _process_alpha_vantage_time_series *)

(** The key of the sort, [x["date"]]; every element of the list is a dict
    built just before with a string under "date". *)
Definition date_of (x : value float) : string :=
  match x with
  | VDict items =>
      match assoc "date" items with
      | Some (VStr s) => s
      | _ => ""
      end
  | _ => ""
  end.

(** [list.sort(key=date_of, reverse=True)]: stable, greatest key first; the
    keys are compared character by character, as Python compares strings. *)
Fixpoint insert_desc (x : value float) (l : list (value float))
  : list (value float) :=
  match l with
  | [] => [x]
  | y :: l' =>
      if String.ltb (date_of x) (date_of y) then y :: insert_desc x l'
      else x :: l
  end.

Definition sort_desc (l : list (value float)) : list (value float) :=
  fold_right insert_desc [] l.

(** The dict appended for one item of the time series. *)
Definition price_of_item (item : string * value float) : res (value float) :=
  let '(date, values) := item in
  (o <~ py_get values "1. open" (VInt 0) ;;
   o <~ py_float rt o ;;
   h <~ py_get values "2. high" (VInt 0) ;;
   h <~ py_float rt h ;;
   l <~ py_get values "3. low" (VInt 0) ;;
   l <~ py_float rt l ;;
   c <~ py_get values "4. close" (VInt 0) ;;
   c <~ py_float rt c ;;
   v <~ py_get values "5. volume" (VInt 0) ;;
   v <~ py_int rt v ;;
   Ok (VDict [("date", VStr date); ("open", VFloat o); ("high", VFloat h);
              ("low", VFloat l); ("close", VFloat c); ("volume", VInt v)]))%res.

Definition _process_alpha_vantage_time_series (time_series : value float)
  : res (list (value float)) :=
  (items <~ py_items time_series ;;
   prices <~ res_map price_of_item items ;;
   Ok (sort_desc prices))%res.

(** *** _get_alpha_vantage_data *)

Definition url : string := "https://www.alphavantage.co/query".

Definition series_params (ticker key : string) : list (string * string) :=
  [("function", "TIME_SERIES_DAILY"); ("symbol", ticker);
   ("outputsize", "full"); ("apikey", key)].

Definition overview_params (ticker key : string) : list (string * string) :=
  [("function", "OVERVIEW"); ("symbol", ticker); ("apikey", key)].

(** The test of line 112, with Python's short-circuit [or]. *)
Definition has_error_key (data : value float) : res bool :=
  (a <~ py_in "Error Message" data ;;
   if a : bool then Ok true else
   b <~ py_in "Information" data ;;
   if b : bool then Ok true else
   py_in "Note" data)%res.

(** The message of the warning of line 113. *)
Definition error_message (data : value float) : res (value float) :=
  (n <~ py_get data "Note" VNone ;;
   i <~ py_get data "Information" n ;;
   py_get data "Error Message" i)%res.

(** The body of the [try] of [_get_alpha_vantage_data]. *)
Definition alpha_vantage_body (ticker key : string) : M (value float) :=
  response <- http_get url (series_params ticker key) ;;
  if negb (status_code response =? 200) then ret VNone else
  data <- lift (json response) ;;
  err <- lift (has_error_key data) ;;
  if err : bool then (lift (error_message data) ;;; ret VNone) else
  time_series <- lift (py_get data "Time Series (Daily)" (VDict [])) ;;
  if negb (truthy rt time_series) then ret VNone else
  meta <- lift (py_get data "Meta Data" (VDict [])) ;;
  last_updated <- lift (py_get meta "3. Last Refreshed" (VStr "")) ;;
  prices <- lift (_process_alpha_vantage_time_series time_series) ;;
  let processed_data :=
    [("ticker", VStr ticker); ("source", VStr "alphavantage");
     ("last_updated", last_updated); ("prices", VList prices)] in
  overview_response <- http_get url (overview_params ticker key) ;;
  if status_code overview_response =? 200 then
    overview_data <- lift (json overview_response) ;;
    has_symbol <- lift (py_in "Symbol" overview_data) ;;
    if has_symbol : bool
    then ret (VDict (assoc_set "company_info" overview_data processed_data))
    else ret (VDict processed_data)
  else ret (VDict processed_data).

Definition _get_alpha_vantage_data (ticker : string) : M (value float) :=
  match alpha_vantage_key self with
  | None => ret VNone
  | Some key =>
      if String.eqb key "" then ret VNone
      else try_except (alpha_vantage_body ticker key) (fun _ => ret VNone)
  end.

(** *** _get_yahoo_finance_data *)

Definition info_get (i : list (string * value float)) (k : string)
  : value float :=
  match assoc k i with
  | Some v => v
  | None => VStr ""
  end.

Definition price_of_bar (row : bar float) : value float :=
  VDict [("date", VStr (strftime_ymd (bar_date row)));
         ("open", VFloat (bar_open row)); ("high", VFloat (bar_high row));
         ("low", VFloat (bar_low row)); ("close", VFloat (bar_close row));
         ("volume", VFloat (bar_volume row))].

Definition yahoo_finance_body (ticker : string) : M (value float) :=
  rows <- history ticker "2y" ;;
  match rows with
  | [] => ret VNone
  | _ =>
      i <- info ticker ;;
      let company_info :=
        VDict [("Symbol", VStr ticker);
               ("Name", info_get i "shortName");
               ("Description", info_get i "longBusinessSummary");
               ("Exchange", info_get i "exchange");
               ("Industry", info_get i "industry");
               ("Sector", info_get i "sector");
               ("MarketCapitalization", info_get i "marketCap");
               ("PERatio", info_get i "trailingPE");
               ("DividendYield", info_get i "dividendYield")] in
      let prices := map price_of_bar rows in
      ret (VDict [("ticker", VStr ticker); ("source", VStr "yahoo");
                  ("last_updated", VStr (strftime_ymd (today w)));
                  ("prices", VList prices); ("company_info", company_info)])
  end.

Definition _get_yahoo_finance_data (ticker : string) : M (value float) :=
  try_except (yahoo_finance_body ticker) (fun _ => ret VNone).

(** *** get_stock_data *)

Definition cache_file_name (ticker : string) : string :=
  lower ticker ++ "_data.json".

Definition cache_file (ticker : string) : string :=
  path_join (cache_dir self) (cache_file_name ticker).

(** Lines 50 to 59: [Some v] when the method returns [v] from the cache,
    [None] when control reaches line 61.  The three calls see the same disk
    ([Shared.read_cache] is the method on a disk that moves between them). *)
Definition read_cache (ticker : string) : M (option (value float)) :=
  found <- path_exists (cache_file ticker) ;;
  if found : bool then
    modified <- getmtime (cache_file ticker) ;;
    let file_age := (clock w - modified)%Q in
    if Qlt_le_dec file_age (inject_Z (cache_duration self)) then
      try_except
        (v <- load_json (cache_file ticker) ;; ret (Some v))
        (fun _ => ret None)
    else ret None
  else ret None.

(** Lines 61 to 77. *)
Definition live_fetch (ticker : string) : M (value float) :=
  data <- _get_alpha_vantage_data ticker ;;
  data <- (if negb (truthy rt data) then _get_yahoo_finance_data ticker
           else ret data) ;;
  (if truthy rt data then
     try_except (dump_json (cache_file ticker) data) (fun _ => ret tt)
   else ret tt) ;;;
  ret data.

Definition get_stock_data (ticker : string) : M (value float) :=
  cached <- read_cache ticker ;;
  match cached with
  | Some v => ret v
  | None => live_fetch ticker
  end.

End StockDataProvider.

(** ** Construction of the provider *)

Module StockDataProvider.

Section Init.

Context {float : Type}.
Variable rt : runtime float.

(** [os.environ] when the object is built. *)
Variable environ : gmap string string.

(** What [os.makedirs(path, exist_ok=True)] does. *)
Variable makedirs : string -> res unit.

(** [__init__(alpha_vantage_key, cache_duration, cache_dir)]: the
    environment, when it has the variable, wins over the argument;
    [os.getenv] then gives a string, which [int] has to parse. *)
Definition __init__ (alpha_vantage_key : option string) (cache_duration : Z)
    (cache_dir : string) : res provider :=
  (duration <~ match environ !! "CACHE_DURATION" with
               | Some s => int_of_str rt s
               | None => Ok cache_duration
               end ;;
   let dir := match environ !! "CACHE_DIRECTORY" with
              | Some d => d
              | None => cache_dir
              end in
   _ <~ makedirs dir ;;
   Ok {| alpha_vantage_key := alpha_vantage_key;
         cache_duration := duration;
         cache_dir := dir |})%res.

End Init.

End StockDataProvider.

(** ** The agent that calls the provider ([src/agents/data_agent.py]) *)

Module StockDataAgent.

Section Agent.

Context {float : Type} {assistant : Type}.
Variable rt : runtime float.
Variable w : world float.
Variable environ : gmap string string.
Variable makedirs : string -> res unit.

(** [autogen.AssistantAgent(name=..., system_message=..., llm_config=...)]. *)
Variable AssistantAgent : string -> string -> value float -> res assistant.

(** The attributes [__init__] sets on [self]. *)
Record instance : Type := {
  config : value float;
  data_provider : provider;
  agent : assistant
}.

Definition system_message : string :=
  "You are a stock data retrieval agent.
            You retrieve historical price data, trading volume, and other fundamental
            data for stocks. You know how to handle missing data and API failures.
            ".

(** [__init__(config)]: the provider gets the key of the environment, or the
    empty string, and the defaults of its other two arguments. *)
Definition __init__ (config : value float) : res instance :=
  (data_provider <~
     StockDataProvider.__init__ rt environ makedirs
       (Some match environ !! "ALPHAVANTAGE_API_KEY" with
             | Some key => key
             | None => ""
             end)
       3600 "./data/cache" ;;
   llm_config <~ py_get config "llm_config" VNone ;;
   agent <~ AssistantAgent "data_agent" system_message llm_config ;;
   Ok {| config := config; data_provider := data_provider; agent := agent |})%res.

(** [get_stock_data(ticker)], the body of the coroutine: what the provider
    gives when it is truthy, [None] otherwise. *)
Definition get_stock_data (self : instance) (ticker : string)
  : M (value float) :=
  try_except
    (data <- get_stock_data rt w (data_provider self) ticker ;;
     if negb (truthy rt data) then ret VNone else ret data)%M
    (fun _ => ret VNone).

End Agent.

End StockDataAgent.

(** ** The cache directory shared with other processes

    In [get_stock_data] above nothing but the method touches the disk while
    it runs.  The cache directory is a shared resource: here the files can
    change between two calls of the method to the operating system. *)

Module Shared.

Section Shared.

Context {float : Type}.
Variable rt : runtime float.
Variable w : world float.
Variable self : provider.

(** What the other processes that use the cache directory do to it between
    two calls of this process to the operating system. *)
Variable others : gmap string file -> gmap string file.

Local Open Scope M_scope.

Definition yield : M unit :=
  fun fs => (Ok tt, others fs, []).

(** Lines 50 to 59, the disk moving between [exists], [getmtime] and
    [open]. *)
Definition read_cache (ticker : string) : M (option (value float)) :=
  found <- path_exists (cache_file self ticker) ;;
  if found : bool then
    yield ;;;
    modified <- getmtime (cache_file self ticker) ;;
    let file_age := (clock w - modified)%Q in
    if Qlt_le_dec file_age (inject_Z (cache_duration self)) then
      yield ;;;
      try_except
        (v <- load_json rt w (cache_file self ticker) ;; ret (Some v))
        (fun _ => ret None)
    else ret None
  else ret None.

(** Lines 61 to 77, the disk moving while the sources are asked. *)
Definition live_fetch (ticker : string) : M (value float) :=
  data <- _get_alpha_vantage_data rt w self ticker ;;
  data <- (if negb (truthy rt data) then _get_yahoo_finance_data w ticker
           else ret data) ;;
  (if truthy rt data then
     yield ;;;
     try_except (dump_json rt w (cache_file self ticker) data)
       (fun _ => ret tt)
   else ret tt) ;;;
  ret data.

Definition get_stock_data (ticker : string) : M (value float) :=
  cached <- read_cache ticker ;;
  match cached with
  | Some v => ret v
  | None => yield ;;; live_fetch ticker
  end.

End Shared.

End Shared.

(** ** Authentication ([src/utils/auth.py]) *)

(** [c.isspace()] for an ASCII character; [str.strip] also removes the
    white space of Unicode beyond ASCII, which is no part of the model: what
    is proved of texts that are stripped is proved for the texts [isascii]
    accepts, or does not depend on what is removed. *)
Definition is_space (c : ascii) : bool :=
  let n := nat_of_ascii c in
  (((9 <=? n) && (n <=? 13)) || ((28 <=? n) && (n <=? 32)))%nat.

Fixpoint lstrip (s : string) : string :=
  match s with
  | EmptyString => EmptyString
  | String c s' => if is_space c then lstrip s' else s
  end.

Fixpoint rstrip (s : string) : string :=
  match s with
  | EmptyString => EmptyString
  | String c s' =>
      match rstrip s' with
      | EmptyString => if is_space c then EmptyString else String c EmptyString
      | r => String c r
      end
  end.

(** [s.strip()]. *)
Definition strip (s : string) : string := rstrip (lstrip s).

(** [sep in s] for a character [sep]. *)
Fixpoint contains (sep : ascii) (s : string) : bool :=
  match s with
  | EmptyString => false
  | String c s' => Ascii.eqb c sep || contains sep s'
  end.

(** [s.split(sep)] for a character [sep]. *)
Fixpoint split_on (sep : ascii) (s : string) : list string :=
  match s with
  | EmptyString => [EmptyString]
  | String c s' =>
      if Ascii.eqb c sep then EmptyString :: split_on sep s'
      else
        match split_on sep s' with
        | piece :: pieces => String c piece :: pieces
        | [] => [String c EmptyString]
        end
  end.

(** [s.split(sep, 1)]: at most one cut, at the first [sep]. *)
Fixpoint split_once (sep : ascii) (s : string) : list string :=
  match s with
  | EmptyString => [EmptyString]
  | String c s' =>
      if Ascii.eqb c sep then [EmptyString; s']
      else
        match split_once sep s' with
        | piece :: pieces => String c piece :: pieces
        | [] => [String c EmptyString]
        end
  end.

Module AuthManager.

(** The attributes of [self]; the dict of credentials keeps its items in the
    order they were inserted. *)
Record instance : Type := {
  auth_enabled : bool;
  credentials : list (string * string)
}.

Fixpoint lookup (username : string) (items : list (string * string))
  : option string :=
  match items with
  | [] => None
  | (u, p) :: items' =>
      if String.eqb u username then Some p else lookup username items'
  end.

(** [credentials[username] = password]. *)
Fixpoint store (username password : string) (items : list (string * string))
  : list (string * string) :=
  match items with
  | [] => [(username, password)]
  | (u, p) :: items' =>
      if String.eqb u username then (username, password) :: items'
      else (u, p) :: store username password items'
  end.

(** The loop of lines 35 to 41 over the pairs still to read. *)
Fixpoint load_pairs (pairs : list string) (items : list (string * string))
  : res (list (string * string)) :=
  match pairs with
  | [] => Ok items
  | cred_pair :: pairs' =>
      if negb (contains ":" cred_pair) then load_pairs pairs' items
      else
        match split_once ":" (strip cred_pair) with
        | [username; password] =>
            load_pairs pairs' (store username password items)
        | _ => Raise ValueError
        end
  end.

Section Environment.

(** [os.environ] when the manager is built. *)
Variable environ : gmap string string.

Definition getenv (name default : string) : string :=
  match environ !! name with
  | Some v => v
  | None => default
  end.

(** [_load_credentials()]: the dict it leaves in [self.credentials]. *)
Definition _load_credentials (enabled : bool) : list (string * string) :=
  if negb enabled then []
  else
    let creds_str := getenv "AUTH_CREDENTIALS" "admin:admin123" in
    match load_pairs (split_on "," creds_str) [] with
    | Ok items => items
    | Raise _ => [("admin", "admin123")]
    end.

Definition __init__ : instance :=
  let flag := lower (getenv "AUTH_ENABLED" "True") in
  let enabled :=
    String.eqb flag "true" || String.eqb flag "1" || String.eqb flag "yes" in
  {| auth_enabled := enabled; credentials := _load_credentials enabled |}.

End Environment.

Definition authenticate (self : instance) (username password : string)
  : bool :=
  if negb (auth_enabled self) then true
  else
    match lookup username (credentials self) with
    | None => false
    | Some stored =>
        if negb (String.eqb stored password) then false else true
    end.

Definition get_auth_middleware (self : instance)
  : option (list string * string) :=
  if negb (auth_enabled self) then None
  else Some (map fst (credentials self), "Enter your username and password").

End AuthManager.

(** ** The vocabulary of the specification *)

Definition result_of {A : Type} (x : res A * gmap string file * list event)
  : res A := fst (fst x).

Definition files_of {A : Type} (x : res A * gmap string file * list event)
  : gmap string file := snd (fst x).

Definition calls_of {A : Type} (x : res A * gmap string file * list event)
  : list event := snd x.

(** A request to the primary source. *)
Definition is_primary (e : event) : bool :=
  match e with
  | HttpGet _ _ => true
  | _ => false
  end.

(** A call to the secondary source. *)
Definition is_secondary (e : event) : bool :=
  match e with
  | YfHistory _ _ | YfInfo _ => true
  | _ => false
  end.

Definition is_network (e : event) : bool := is_primary e || is_secondary e.

Definition is_write (e : event) : bool :=
  match e with
  | OpenWrite _ => true
  | _ => false
  end.

(** The file an event opens, if it opens one. *)
Definition opened (e : event) : option string :=
  match e with
  | OpenRead path | OpenWrite path => Some path
  | _ => None
  end.

(** Two characters that are the same letter, whatever the case. *)
Definition same_letter (c d : ascii) : Prop :=
  let m := nat_of_ascii c in
  let n := nat_of_ascii d in
  m = n
  \/ ((65 <= m <= 90)%nat /\ n = (m + 32)%nat)
  \/ ((65 <= n <= 90)%nat /\ m = (n + 32)%nat).

(** Two strings that differ only in letter case. *)
Inductive same_letters : string -> string -> Prop :=
| same_empty : same_letters EmptyString EmptyString
| same_cons c d s t :
    same_letter c d -> same_letters s t ->
    same_letters (String c s) (String d t).

Definition has_sep (s : string) : bool :=
  existsb (Ascii.eqb "/") (list_ascii_of_string s).

(** A name that stays one component of a path. *)
Definition safe_name (s : string) : bool := negb (has_sep s).

(** [m] leaves the disk as it found it, makes only the calls [E] allows, and
    gives a value in [P] whenever it does not raise. *)
Definition quiet {A : Type} (E : event -> Prop) (P : A -> Prop) (m : M A)
  : Prop :=
  forall fs, exists r t,
    m fs = (r, fs, t) /\ Forall E t /\ (forall a, r = Ok a -> P a).

(** The five keys of an entry of the primary time series. *)
Definition ohlcv_keys : list string :=
  ["1. open"; "2. high"; "3. low"; "4. close"; "5. volume"].

(** The key of a price dict that an entry key is mapped to. *)
Definition canonical (k : string) : string :=
  if String.eqb k "1. open" then "open"
  else if String.eqb k "2. high" then "high"
  else if String.eqb k "3. low" then "low"
  else if String.eqb k "4. close" then "close"
  else "volume".

Section Vocabulary.

Context {float : Type}.
Variable rt : runtime float.
Variable w : world float.
Variable self : provider.

(** The price list of a record. *)
Definition prices_of (record : value float) : list (value float) :=
  match record with
  | VDict items =>
      match assoc "prices" items with
      | Some (VList l) => l
      | _ => []
      end
  | _ => []
  end.

(** Most recent date first. *)
Definition dates_descending (l : list (value float)) : Prop :=
  Sorted (fun a b => String.leb (date_of b) (date_of a) = true) l.

(** A source succeeded: it gave a record, which always has items. *)
Definition is_record (d : value float) : Prop :=
  exists item items, d = VDict (item :: items).

(** [f] is the cache file of [ticker] and is younger than the duration. *)
Definition fresh (fs : gmap string file) (ticker : string) (f : file) : Prop :=
  fs !! cache_file self ticker = Some f
  /\ (clock w - mtime f < inject_Z (cache_duration self))%Q.

(** The cache file is absent or stale. *)
Definition absent_or_stale (fs : gmap string file) (ticker : string) : Prop :=
  forall f, ~ fresh fs ticker f.

(** The cache serves [v]: a fresh file that opens and deserializes to [v]. *)
Definition cache_hit (fs : gmap string file) (ticker : string)
    (v : value float) : Prop :=
  exists f, fresh fs ticker f
            /\ can_read w (cache_file self ticker) = true
            /\ json_loads rt (content f) = Ok v.

Definition cache_miss (fs : gmap string file) (ticker : string) : Prop :=
  forall v, ~ cache_hit fs ticker v.

(** Writing [data] to [path] goes through, and gives the text [text]. *)
Definition write_succeeds (path : string) (data : value float)
    (text : string) : Prop :=
  can_write w path = true
  /\ json_dumps rt data = Dumped text
  /\ write_fault w path text = None.

(** The primary source and the secondary source both give [None]. *)
Definition both_sources_fail (fs : gmap string file) (ticker : string) : Prop :=
  result_of (_get_alpha_vantage_data rt w self ticker fs) = Ok VNone
  /\ result_of (_get_yahoo_finance_data w ticker fs) = Ok VNone.

(** [d] is a record that the primary source gave, or the secondary source
    after the primary source gave [None]. *)
Definition live_record (fs : gmap string file) (ticker : string)
    (d : value float) : Prop :=
  is_record d
  /\ (result_of (_get_alpha_vantage_data rt w self ticker fs) = Ok d
      \/ (result_of (_get_alpha_vantage_data rt w self ticker fs) = Ok VNone
          /\ result_of (_get_yahoo_finance_data w ticker fs) = Ok d)).

(** The body of a response carries one of the keys that signal an error. *)
Definition has_error_indicator (items : list (string * value float)) : Prop :=
  is_Some (assoc "Error Message" items)
  \/ is_Some (assoc "Information" items)
  \/ is_Some (assoc "Note" items).

(** The body of a response has no time series, or an empty one. *)
Definition empty_series (items : list (string * value float)) : Prop :=
  match assoc "Time Series (Daily)" items with
  | Some time_series => truthy rt time_series = false
  | None => True
  end.

(** What [json.load] gives on an open file, or the error of [open]. *)
Definition loaded (path : string) (f : file) : res (value float) :=
  if can_read w path then json_loads rt (content f) else Raise OSError.

(** What a price dict carries for the entry key [k] of the entry [items]:
    the float of a price, the int of the volume. *)
Definition converted (items : list (string * value float)) (k : string)
  : res (value float) :=
  (x <~ py_get (VDict items) k (VInt 0) ;;
   if String.eqb k "5. volume"
   then (z <~ py_int rt x ;; Ok (VInt z))
   else (f <~ py_float rt x ;; Ok (VFloat f)))%res.

(** The zero a missing field is replaced with. *)
Definition zero_of (zero : float) (k : string) : value float :=
  if String.eqb k "5. volume" then VInt 0 else VFloat zero.

(** The value of a price dict under a key. *)
Definition price_field (p : value float) (name : string)
  : option (value float) :=
  match p with
  | VDict items => assoc name items
  | _ => None
  end.

End Vocabulary.

(** The value of a dict under a key, [None] when there is none. *)
Definition record_field {float : Type} (d : value float) (k : string)
  : option (value float) :=
  match d with
  | VDict items => assoc k items
  | _ => None
  end.

(** An event that opens a file for reading. *)
Definition is_read (e : event) : bool :=
  match e with
  | OpenRead _ => true
  | _ => false
  end.

Section Answers.

Context {float : Type}.
Variable rt : runtime float.
Variable w : world float.

(** The request for the daily series of [ticker] is answered with status 200
    and an object that has no error key and a series that is not empty, from
    which the date of the last refresh and the prices are read. *)
Definition good_series (ticker key : string) (last_updated : value float)
    (prices : list (value float)) : Prop :=
  exists items time_series,
    requests_get w url (series_params ticker key)
    = Response 200 (Ok (VDict items))
    /\ ~ has_error_indicator items
    /\ assoc "Time Series (Daily)" items = Some time_series
    /\ truthy rt time_series = true
    /\ (meta <~ py_get (VDict items) "Meta Data" (VDict []) ;;
        py_get meta "3. Last Refreshed" (VStr ""))%res = Ok last_updated
    /\ _process_alpha_vantage_time_series rt time_series = Ok prices.

(** The first four items of a record of the primary source. *)
Definition primary_items (ticker : string) (last_updated : value float)
    (prices : list (value float)) : list (string * value float) :=
  [("ticker", VStr ticker); ("source", VStr "alphavantage");
   ("last_updated", last_updated); ("prices", VList prices)].

(** Lines 122 to 142 of [_get_alpha_vantage_data]: what is left of the body
    once the body of the response [items] and its time series are there. *)
Definition after_series (ticker key : string)
    (items : list (string * value float)) (time_series : value float)
  : M (value float) :=
  (meta <- lift (py_get (VDict items) "Meta Data" (VDict [])) ;;
   last_updated <- lift (py_get meta "3. Last Refreshed" (VStr "")) ;;
   prices <- lift (_process_alpha_vantage_time_series rt time_series) ;;
   overview_response <- http_get w url (overview_params ticker key) ;;
   if status_code overview_response =? 200 then
     overview_data <- lift (json overview_response) ;;
     has_symbol <- lift (py_in "Symbol" overview_data) ;;
     if has_symbol : bool
     then ret (VDict (assoc_set "company_info" overview_data
                        (primary_items ticker last_updated prices)))
     else ret (VDict (primary_items ticker last_updated prices))
   else ret (VDict (primary_items ticker last_updated prices)))%M.

(** The world [w] with another behaviour of the disk on writes. *)
Definition with_disk (writable : string -> bool)
    (fault : string -> string -> option string) : world float :=
  {| clock := clock w; write_clock := write_clock w; today := today w;
     can_read := can_read w; can_write := writable; write_fault := fault;
     requests_get := requests_get w; yf_history := yf_history w;
     yf_info := yf_info w |}.

End Answers.

(** ** A runtime and some worlds to run the provider in *)

Module Scenario.

(** Floats as rationals; decimal literals only. *)
Definition digit_of (c : ascii) : option N :=
  let n := N_of_ascii c in
  if ((48 <=? n) && (n <=? 57))%N then Some (n - 48)%N else None.

Fixpoint scan (s : string) (m : N) (scale : positive) (frac : bool)
  : option (N * positive) :=
  match s with
  | EmptyString => Some (m, scale)
  | String c s' =>
      if Ascii.eqb c "." then
        if frac then None else scan s' m scale true
      else
        match digit_of c with
        | Some d =>
            scan s' (10 * m + d)%N (if frac then (10 * scale)%positive else scale) frac
        | None => None
        end
  end.

Definition q_of_str (s : string) : res Q :=
  match s with
  | EmptyString => Raise ValueError
  | _ =>
      match scan s 0%N 1%positive false with
      | Some (m, scale) => Ok (Z.of_N m # scale)
      | None => Raise ValueError
      end
  end.

Definition z_of_str (s : string) : res Z :=
  match s with
  | EmptyString => Raise ValueError
  | _ =>
      if existsb (Ascii.eqb ".") (list_ascii_of_string s) then Raise ValueError
      else
        match scan s 0%N 1%positive false with
        | Some (m, _) => Ok (Z.of_N m)
        | None => Raise ValueError
        end
  end.

Definition quote : string := String (ascii_of_nat 34) EmptyString.

Definition show_Z (z : Z) : string :=
  DecimalString.NilZero.string_of_int (Z.to_int z).

(** The text of a value, in the layout of [json.dump]; a rational is
    written as a fraction. *)
Fixpoint show (v : value Q) : string :=
  match v with
  | VNone => "null"
  | VBool b => if b then "true" else "false"
  | VInt z => show_Z z
  | VFloat q => show_Z (Qnum q) ++ "/" ++ show_Z (Zpos (Qden q))
  | VStr s => quote ++ s ++ quote
  | VList l =>
      let elements :=
        fix elements (l : list (value Q)) : string :=
          match l with
          | [] => ""
          | [x] => show x
          | x :: l' => (show x ++ ", " ++ elements l')%string
          end in
      "[" ++ elements l ++ "]"
  | VDict items =>
      let members :=
        fix members (l : list (string * value Q)) : string :=
          match l with
          | [] => ""
          | [(k, x)] => (quote ++ k ++ quote ++ ": " ++ show x)%string
          | (k, x) :: l' =>
              (quote ++ k ++ quote ++ ": " ++ show x ++ ", " ++ members l')%string
          end in
      "{" ++ members items ++ "}"
  end%string.

(** A reader that knows the documents of a shelf. *)
Definition read (shelf : list (value Q)) (text : string) : res (value Q) :=
  match find (fun v => String.eqb (show v) text) shelf with
  | Some v => Ok v
  | None => Raise JSONDecodeError
  end.

Definition python (shelf : list (value Q)) : runtime Q :=
  {| float_of_int := fun z => Ok (inject_Z z);
     float_of_str := q_of_str;
     int_of_float := fun q => Ok (Z.quot (Qnum q) (Zpos (Qden q)));
     int_of_str := z_of_str;
     float_nonzero := fun q => negb (Qnum q =? 0);
     json_dumps := fun v => Dumped (show v);
     json_loads := read shelf |}.

Definition ymd (y m d : nat) : timestamp :=
  {| year := y; month := m; day := d |}.

(** A world from its sources and its disk permissions; the clock reads
    5000 s and a written file is stamped 5001 s. *)
Definition make_world
    (get : string -> list (string * string) -> http_outcome Q)
    (hist : string -> string -> res (list (bar Q)))
    (readable writable : bool) : world Q :=
  {| clock := 5000%Q; write_clock := 5001%Q; today := ymd 2024 1 4;
     can_read := fun _ => readable; can_write := fun _ => writable;
     write_fault := fun _ _ => None;
     requests_get := get; yf_history := hist;
     yf_info := fun _ => Ok [("shortName", VStr "Apple Inc.")] |}.

Definition no_response : string -> list (string * string) -> http_outcome Q :=
  fun _ _ => NoResponse.

Definition no_rows : string -> string -> res (list (bar Q)) :=
  fun _ _ => Ok [].

Definition day_bar (t : timestamp) (close : Q) : bar Q :=
  {| bar_date := t; bar_open := close; bar_high := close; bar_low := close;
     bar_close := close; bar_volume := 1000%Q |}.

(** Yahoo's frame: two trading days, the older first. *)
Definition two_rows : string -> string -> res (list (bar Q)) :=
  fun _ _ => Ok [day_bar (ymd 2024 1 2) 185%Q; day_bar (ymd 2024 1 3) 184%Q].

Definition day_entry (close volume : string) : value Q :=
  VDict [("1. open", VStr close); ("2. high", VStr close);
         ("3. low", VStr close); ("4. close", VStr close);
         ("5. volume", VStr volume)].

(** Alpha Vantage's daily series for two trading days. *)
Definition series_body : value Q :=
  VDict [("Meta Data", VDict [("3. Last Refreshed", VStr "2024-01-03")]);
         ("Time Series (Daily)",
          VDict [("2024-01-02", day_entry "185.64" "82488700");
                 ("2024-01-03", day_entry "184.25" "58414500")])].

(** Alpha Vantage's answer when the call frequency is exceeded. *)
Definition rate_limited_body : value Q :=
  VDict [("Note", VStr "API call frequency exceeded")].

Definition answers (body : value Q)
  : string -> list (string * string) -> http_outcome Q :=
  fun _ params =>
    match params with
    | ("function", "TIME_SERIES_DAILY") :: _ => Response 200 (Ok body)
    | _ => Response 404 (Raise JSONDecodeError)
    end.

Definition with_key : provider :=
  {| alpha_vantage_key := Some "demo"; cache_duration := 3600;
     cache_dir := "./data/cache" |}.

Definition without_key : provider :=
  {| alpha_vantage_key := Some ""; cache_duration := 3600;
     cache_dir := "./data/cache" |}.

(** A record as a previous call cached it. *)
Definition cached_record : value Q :=
  VDict [("ticker", VStr "AAPL"); ("source", VStr "yahoo");
         ("last_updated", VStr "2024-01-03"); ("prices", VList [])].

Definition aapl_path : string := "./data/cache/aapl_data.json".

(** A disk whose file for AAPL was written at [t] with [text]. *)
Definition disk (t : Q) (text : string) : gmap string file :=
  {[ aapl_path := {| mtime := t; content := text |} ]}.

(** The primary source answers with the daily series, Yahoo with two rows. *)
Definition world_primary : world Q :=
  make_world (answers series_body) two_rows true true.

(** The primary source answers with the notice, Yahoo with two rows. *)
Definition world_limited : world Q :=
  make_world (answers rate_limited_body) two_rows true true.

(** No source answers. *)
Definition world_down : world Q :=
  make_world no_response no_rows true true.

(** Only Yahoo answers. *)
Definition world_yahoo : world Q :=
  make_world no_response two_rows true true.


(** The record built from Yahoo's two rows. *)
Definition yahoo_record : value Q :=
  Eval vm_compute in
    match result_of (_get_yahoo_finance_data world_yahoo "AAPL" ∅) with
    | Ok d => d
    | Raise _ => VNone
    end.

(** An entry of the series with no volume. *)
Definition entry_without_volume : list (string * value Q) :=
  [("1. open", VStr "185.64"); ("2. high", VStr "186.95");
   ("3. low", VStr "183.82"); ("4. close", VStr "184.25")].

(** Answers by request: one for the daily series, one for anything else. *)
Definition answers_both (series overview : http_outcome Q)
  : string -> list (string * string) -> http_outcome Q :=
  fun _ params =>
    match params with
    | ("function", "TIME_SERIES_DAILY") :: _ => series
    | _ => overview
    end.

(** The two entries of [series_body], and the prices built from them. *)
Definition series_entries : list (string * value Q) :=
  [("2024-01-02", day_entry "185.64" "82488700");
   ("2024-01-03", day_entry "184.25" "58414500")].

Definition series_prices : list (value Q) :=
  Eval vm_compute in
    match _process_alpha_vantage_time_series (python []) (VDict series_entries)
    with
    | Ok prices => prices
    | Raise _ => []
    end.

(** A series whose second entry is a text instead of an object. *)
Definition malformed_items : list (string * value Q) :=
  [("Time Series (Daily)",
    VDict [("2024-01-02", day_entry "185.64" "82488700");
           ("2024-01-03", VStr "n/a")])].

Definition world_malformed : world Q :=
  make_world (answers (VDict malformed_items)) two_rows true true.

(** The primary source answers 204, a success without content. *)
Definition world_no_content : world Q :=
  make_world (fun _ _ => Response 204 (Raise JSONDecodeError)) two_rows
    true true.

(** The primary source answers 200 with a JSON list. *)
Definition world_list_body : world Q :=
  make_world (answers (VList [VStr "busy"])) two_rows true true.

(** The series is answered, the request for the overview is lost. *)
Definition world_overview_lost : world Q :=
  make_world (answers_both (Response 200 (Ok series_body)) NoResponse)
    two_rows true true.

Definition overview_items : list (string * value Q) :=
  [("Symbol", VStr "AAPL"); ("Name", VStr "Apple Inc")].

(** The series and the overview are both answered. *)
Definition world_overview : world Q :=
  make_world (answers_both (Response 200 (Ok series_body))
                (Response 200 (Ok (VDict overview_items))))
    two_rows true true.

(** Yahoo gives its two rows, but reading [stock.info] raises. *)
Definition world_no_info : world Q :=
  {| clock := 5000%Q; write_clock := 5001%Q; today := ymd 2024 1 4;
     can_read := fun _ => true; can_write := fun _ => true;
     write_fault := fun _ _ => None;
     requests_get := no_response; yf_history := two_rows;
     yf_info := fun _ => Raise KeyError |}.

(** Half an hour after [world_yahoo], with every source down. *)
Definition world_later : world Q :=
  {| clock := 6800%Q; write_clock := 6801%Q; today := ymd 2024 1 4;
     can_read := fun _ => true; can_write := fun _ => true;
     write_fault := fun _ _ => None;
     requests_get := no_response; yf_history := no_rows;
     yf_info := fun _ => Raise KeyError |}.


(** Another process of the application: a clean-up that removes the cache
    file of AAPL. *)
Definition cleanup (fs : gmap string file) : gmap string file :=
  delete aapl_path fs.

(** The pieces an agent is built from: every directory can be made, and
    [AssistantAgent] gives a token. *)
Definition makes_any : string -> res unit := fun _ => Ok tt.

Definition any_assistant : string -> string -> value Q -> res unit :=
  fun _ _ _ => Ok tt.

(** An agent whose provider has a key. *)
Definition agent_with_key
  : StockDataAgent.instance (float:=Q) (assistant:=unit) :=
  {| StockDataAgent.config := VDict [];
     StockDataAgent.data_provider := with_key;
     StockDataAgent.agent := tt |}.

(** The agent built in an empty environment. *)
Definition built_agent
  : StockDataAgent.instance (float:=Q) (assistant:=unit) :=
  Eval vm_compute in
    match StockDataAgent.__init__ (python []) ∅ makes_any any_assistant
            (VDict [])
    with
    | Ok self => self
    | Raise _ => agent_with_key
    end.

End Scenario.

(** * Properties *)

(** ** The monad *)

Lemma quiet_ret {A : Type} (E : event -> Prop) (P : A -> Prop) (a : A) :
  P a -> quiet E P (ret a).
Proof.
  intros HP fs. exists (Ok a), []. repeat split; auto.
  intros a' Ha. now inversion Ha; subst.
Qed.

Lemma quiet_lift {A : Type} (E : event -> Prop) (r : res A) :
  quiet E (fun a => r = Ok a) (lift r).
Proof.
  intros fs. exists r, []. repeat split; auto.
Qed.

Lemma quiet_bind {A B : Type} (E : event -> Prop) (P : A -> Prop)
    (Q : B -> Prop) (m : M A) (k : A -> M B) :
  quiet E P m -> (forall a, P a -> quiet E Q (k a)) -> quiet E Q (bind m k).
Proof.
  intros Hm Hk fs. unfold bind.
  destruct (Hm fs) as (r & t & -> & Ht & Hr).
  destruct r as [a | e].
  - destruct (Hk a (Hr a eq_refl) fs) as (r' & t' & -> & Ht' & Hr').
    exists r', (t ++ t'). repeat split; auto. now apply Forall_app.
  - exists (Raise e), t. repeat split; auto. discriminate.
Qed.

Lemma quiet_try {A : Type} (E : event -> Prop) (P : A -> Prop)
    (m : M A) (h : exn -> M A) :
  quiet E P m -> (forall e, quiet E P (h e)) -> quiet E P (try_except m h).
Proof.
  intros Hm Hh fs. unfold try_except.
  destruct (Hm fs) as (r & t & -> & Ht & Hr).
  destruct r as [a | e].
  - exists (Ok a), t. auto.
  - destruct (Hh e fs) as (r' & t' & -> & Ht' & Hr').
    exists r', (t ++ t'). repeat split; auto. now apply Forall_app.
Qed.

(** A [try] whose handler returns a value never raises. *)
Lemma quiet_try_ret {A : Type} (E : event -> Prop) (P : A -> Prop)
    (m : M A) (d : A) :
  quiet E P m -> P d ->
  forall fs, exists a t,
    try_except m (fun _ => ret d) fs = (Ok a, fs, t) /\ Forall E t /\ P a.
Proof.
  intros Hm Hd fs. unfold try_except, ret.
  destruct (Hm fs) as (r & t & -> & Ht & Hr).
  destruct r as [a | e].
  - exists a, t. auto.
  - exists d, (t ++ []). repeat split; auto. now apply Forall_app.
Qed.

Lemma bind_lift_ok {A B : Type} (a : A) (k : A -> M B) (fs : gmap string file) :
  bind (lift (Ok a)) k fs = k a fs.
Proof.
  unfold bind, lift. now destruct (k a fs) as [[r fs'] t].
Qed.

(** What a sequence, or a [try], calls starts with what its first part
    calls. *)
Lemma bind_calls_prefix {A B : Type} (m : M A) (k : A -> M B)
    (fs : gmap string file) :
  exists rest, calls_of (bind m k fs) = calls_of (m fs) ++ rest.
Proof.
  unfold bind, calls_of. destruct (m fs) as [[[a | e] fs1] t1]; cbn.
  - destruct (k a fs1) as [[r fs2] t2]. cbn. eauto.
  - exists []. now rewrite app_nil_r.
Qed.

Lemma try_calls_prefix {A : Type} (m : M A) (h : exn -> M A)
    (fs : gmap string file) :
  exists rest, calls_of (try_except m h fs) = calls_of (m fs) ++ rest.
Proof.
  unfold try_except, calls_of. destruct (m fs) as [[[a | e] fs1] t1]; cbn.
  - exists []. now rewrite app_nil_r.
  - destruct (h e fs1) as [[r fs2] t2]. cbn. eauto.
Qed.

Section Properties.

Context {float : Type}.
Variable rt : runtime float.
Variable w : world float.
Variable self : provider.

Local Abbreviation primary_only := (fun e => is_primary e = true).
Local Abbreviation secondary_only := (fun e => is_secondary e = true).
Local Abbreviation anything := (fun _ => True).

(** ** The two sources *)

Lemma quiet_http_get (u : string) (params : list (string * string)) :
  quiet primary_only anything (http_get w u params).
Proof.
  intros fs. unfold http_get.
  destruct (requests_get w u params); eauto 10.
Qed.

Lemma truthy_record (d : value float) : is_record d -> truthy rt d = true.
Proof. intros (item & items & ->). reflexivity. Qed.

Lemma truthy_outcome (d : value float) :
  d = VNone \/ is_record d -> (truthy rt d = false <-> d = VNone).
Proof.
  intros [-> | Hd]; [easy |].
  rewrite (truthy_record d Hd).
  destruct Hd as (item & items & ->). easy.
Qed.

Ltac quiet_step :=
  match goal with
  | |- quiet _ _ (bind (http_get _ _ _) _) =>
      eapply quiet_bind; [apply quiet_http_get | intros ? _]
  | |- quiet _ _ (bind (lift _) _) =>
      eapply quiet_bind; [apply quiet_lift | intros ? ?]
  | |- quiet _ _ (if ?b then _ else _) => destruct b
  | |- quiet _ _ (ret _) => apply quiet_ret
  end.

Lemma quiet_alpha_vantage_body (ticker key : string) :
  quiet primary_only (fun d => d = VNone \/ is_record d)
    (alpha_vantage_body rt w ticker key).
Proof.
  unfold alpha_vantage_body.
  repeat quiet_step; auto; right; cbn; unfold is_record; eauto.
Qed.

(** The primary attempt never raises, leaves the disk alone, calls only the
    primary source, and gives [None] or a record. *)
Lemma alpha_vantage_outcome (ticker : string) (fs : gmap string file) :
  exists d t,
    _get_alpha_vantage_data rt w self ticker fs = (Ok d, fs, t)
    /\ Forall primary_only t
    /\ (d = VNone \/ is_record d).
Proof.
  unfold _get_alpha_vantage_data.
  destruct (alpha_vantage_key self) as [key |].
  - destruct (String.eqb key "").
    + exists VNone, []. auto.
    + apply quiet_try_ret; [apply quiet_alpha_vantage_body | auto].
  - exists VNone, []. auto.
Qed.

(** The secondary attempt never raises, leaves the disk alone, and starts
    with the request for the history. *)
Lemma yahoo_finance_outcome (ticker : string) (fs : gmap string file) :
  exists d t,
    _get_yahoo_finance_data w ticker fs
    = (Ok d, fs, YfHistory ticker "2y" :: t)
    /\ Forall secondary_only t
    /\ (d = VNone \/ is_record d).
Proof.
  unfold _get_yahoo_finance_data, try_except, yahoo_finance_body, bind,
    history, info, ret.
  destruct (yf_history w ticker "2y") as [[| row rows] | e]; cbn.
  - exists VNone, []. auto.
  - destruct (yf_info w ticker) as [i | e]; cbn.
    + eexists _, [YfInfo ticker]. repeat split; auto.
      right. unfold is_record. eauto.
    + exists VNone, [YfInfo ticker]. auto.
  - exists VNone, []. auto.
Qed.

(** ** The cache *)

(** Writing the cache never raises past its handler and makes one call. *)
Lemma cache_write_outcome (path : string) (data : value float)
    (fs : gmap string file) :
  try_except (dump_json rt w path data) (fun _ => ret tt) fs
  = (Ok tt, files_of (dump_json rt w path data fs), [OpenWrite path]).
Proof.
  unfold try_except, dump_json, files_of, ret.
  destruct (can_write w path); [| reflexivity].
  destruct (json_dumps rt data) as [text | part]; [| reflexivity].
  destruct (write_fault w path text); reflexivity.
Qed.

Lemma cache_write_succeeds (path : string) (data : value float) (text : string)
    (fs : gmap string file) :
  write_succeeds rt w path data text ->
  files_of (dump_json rt w path data fs) = <[path := written w text]> fs.
Proof.
  intros (Hopen & Hdump & Hfault). unfold files_of, dump_json.
  now rewrite Hopen, Hdump, Hfault.
Qed.

(** Without a fresh file, lines 50 to 59 touch nothing. *)
Lemma read_cache_stale (ticker : string) (fs : gmap string file) :
  absent_or_stale w self fs ticker ->
  read_cache rt w self ticker fs = (Ok None, fs, []).
Proof.
  intros Hstale.
  unfold read_cache, bind, path_exists, getmtime, ret.
  destruct (fs !! cache_file self ticker) as [f |] eqn:Hfile.
  - rewrite bool_decide_eq_true_2 by eauto. cbn. rewrite Hfile.
    destruct (Qlt_le_dec (clock w - mtime f) (inject_Z (cache_duration self)))
      as [Hage | Hage]; [| reflexivity].
    exfalso. apply (Hstale f). split; assumption.
  - rewrite bool_decide_eq_false_2 by (intros [? ?]; discriminate).
    reflexivity.
Qed.

(** With a fresh file, they open it and serve what it deserializes to. *)
Lemma read_cache_fresh (ticker : string) (fs : gmap string file) (f : file) :
  fresh w self fs ticker f ->
  read_cache rt w self ticker fs =
    (match loaded rt w (cache_file self ticker) f with
     | Ok v => Ok (Some v)
     | Raise _ => Ok None
     end, fs, [OpenRead (cache_file self ticker)]).
Proof.
  intros [Hfile Hage].
  unfold read_cache, bind, path_exists, getmtime, try_except, load_json, ret,
    loaded.
  rewrite bool_decide_eq_true_2 by eauto. cbn. rewrite Hfile.
  destruct (Qlt_le_dec (clock w - mtime f) (inject_Z (cache_duration self)))
    as [_ | Hle]; [| exfalso; exact (Qlt_not_le _ _ Hage Hle)].
  cbn. rewrite Hfile.
  destruct (can_read w (cache_file self ticker)); [| reflexivity].
  destruct (json_loads rt (content f)); reflexivity.
Qed.

Lemma stale_or_fresh (ticker : string) (fs : gmap string file) :
  absent_or_stale w self fs ticker \/ exists f, fresh w self fs ticker f.
Proof.
  unfold absent_or_stale, fresh.
  destruct (fs !! cache_file self ticker) as [f |].
  - destruct (Qlt_le_dec (clock w - mtime f) (inject_Z (cache_duration self)))
      as [Hage | Hage].
    + right. exists f. auto.
    + left. intros f' [[= <-] Hlt]. exact (Qlt_not_le _ _ Hlt Hage).
  - left. intros f' [? _]. discriminate.
Qed.

(** Reading the cache never raises, leaves the disk alone, opens at most the
    cache file, and serves exactly a fresh file that opens and deserializes. *)
Lemma read_cache_outcome (ticker : string) (fs : gmap string file) :
  exists o t,
    read_cache rt w self ticker fs = (Ok o, fs, t)
    /\ (t = [] \/ t = [OpenRead (cache_file self ticker)])
    /\ (forall v, o = Some v <-> cache_hit rt w self fs ticker v).
Proof.
  destruct (stale_or_fresh ticker fs) as [Hstale | [f Hfresh]].
  - exists None, []. rewrite (read_cache_stale _ _ Hstale).
    repeat split; auto; [discriminate |].
    intros (f & Hfresh & _). exfalso. exact (Hstale f Hfresh).
  - rewrite (read_cache_fresh _ _ _ Hfresh). unfold loaded, cache_hit.
    destruct (can_read w (cache_file self ticker)) eqn:Hread.
    + destruct (json_loads rt (content f)) as [v0 | e] eqn:Hload.
      * exists (Some v0), [OpenRead (cache_file self ticker)].
        repeat split; auto.
        -- intros [= <-]. exists f. auto.
        -- intros (f' & [Hf' _] & _ & Hv).
           destruct Hfresh as [Hf _]. congruence.
      * exists None, [OpenRead (cache_file self ticker)].
        repeat split; auto; [discriminate |].
        intros (f' & [Hf' _] & _ & Hv).
        destruct Hfresh as [Hf _]. congruence.
    + exists None, [OpenRead (cache_file self ticker)].
      repeat split; auto; [discriminate |].
      intros (f' & _ & Hr & _). discriminate.
Qed.

(** ** The method as a whole *)

(** Lines 61 to 77, given what the two sources answer. *)
Lemma live_fetch_outcome (ticker : string) (fs : gmap string file)
    (d1 d2 : value float) (t1 t2 : list event) :
  _get_alpha_vantage_data rt w self ticker fs = (Ok d1, fs, t1) ->
  _get_yahoo_finance_data w ticker fs = (Ok d2, fs, t2) ->
  live_fetch rt w self ticker fs =
    let d := if truthy rt d1 then d1 else d2 in
    let t := if truthy rt d1 then t1 else t1 ++ t2 in
    if truthy rt d
    then (Ok d, files_of (dump_json rt w (cache_file self ticker) d fs),
          t ++ [OpenWrite (cache_file self ticker)])
    else (Ok d, fs, t).
Proof.
  intros H1 H2. unfold live_fetch, bind. rewrite H1.
  destruct (truthy rt d1) eqn:Hd1; cbn; rewrite ?Hd1.
  - rewrite cache_write_outcome. now rewrite app_nil_r.
  - rewrite H2.
    destruct (truthy rt d2) eqn:Hd2; cbn; rewrite ?Hd2.
    + rewrite cache_write_outcome. now rewrite app_nil_r, app_assoc.
    + cbn. now rewrite app_nil_r.
Qed.

Lemma get_stock_data_hit (ticker : string) (fs : gmap string file)
    (v : value float) (t0 : list event) :
  read_cache rt w self ticker fs = (Ok (Some v), fs, t0) ->
  get_stock_data rt w self ticker fs = (Ok v, fs, t0).
Proof.
  intros H. unfold get_stock_data, bind. rewrite H. cbn.
  now rewrite app_nil_r.
Qed.

Lemma get_stock_data_miss (ticker : string) (fs : gmap string file)
    (t0 : list event) :
  read_cache rt w self ticker fs = (Ok None, fs, t0) ->
  get_stock_data rt w self ticker fs =
    (result_of (live_fetch rt w self ticker fs),
     files_of (live_fetch rt w self ticker fs),
     t0 ++ calls_of (live_fetch rt w self ticker fs)).
Proof.
  intros H. unfold get_stock_data, bind. rewrite H.
  now destruct (live_fetch rt w self ticker fs) as [[r fs'] t].
Qed.

Lemma primary_is_not_secondary (t : list event) :
  Forall primary_only t -> Forall (fun e => is_secondary e = false) t.
Proof.
  intros Ht. eapply Forall_impl; [exact Ht |].
  intros [] H; cbn in *; congruence.
Qed.

Lemma secondary_is_not_primary (t : list event) :
  Forall secondary_only t -> Forall (fun e => is_primary e = false) t.
Proof.
  intros Ht. eapply Forall_impl; [exact Ht |].
  intros [] H; cbn in *; congruence.
Qed.

(** A miss, whatever its reason: the sources are asked, and what the call
    makes is the read of the cache, the calls of the primary source, those of
    the secondary source if the primary gave [None], and the write. *)
Lemma get_stock_data_live (ticker : string) (fs : gmap string file)
    (t0 : list event) :
  read_cache rt w self ticker fs = (Ok None, fs, t0) ->
  exists d1 t1 d2 t2,
    _get_alpha_vantage_data rt w self ticker fs = (Ok d1, fs, t1)
    /\ Forall primary_only t1
    /\ (d1 = VNone \/ is_record d1)
    /\ _get_yahoo_finance_data w ticker fs
       = (Ok d2, fs, YfHistory ticker "2y" :: t2)
    /\ Forall secondary_only t2
    /\ (d2 = VNone \/ is_record d2)
    /\ get_stock_data rt w self ticker fs =
         let d := if truthy rt d1 then d1 else d2 in
         let t := if truthy rt d1 then t1
                  else t1 ++ YfHistory ticker "2y" :: t2 in
         if truthy rt d
         then (Ok d, files_of (dump_json rt w (cache_file self ticker) d fs),
               t0 ++ t ++ [OpenWrite (cache_file self ticker)])
         else (Ok d, fs, t0 ++ t).
Proof.
  intros Hmiss.
  destruct (alpha_vantage_outcome ticker fs) as (d1 & t1 & H1 & Ht1 & Hd1).
  destruct (yahoo_finance_outcome ticker fs) as (d2 & t2 & H2 & Ht2 & Hd2).
  exists d1, t1, d2, t2. repeat split; auto.
  rewrite (get_stock_data_miss _ _ _ Hmiss).
  rewrite (live_fetch_outcome _ _ _ _ _ _ H1 H2). cbn.
  destruct (truthy rt (if truthy rt d1 then d1 else d2)); reflexivity.
Qed.

(** ** The claims *)

(** C1, amended: when the cache file of a ticker exists, is younger than the
    cache duration, can be opened and deserializes, [get_stock_data] returns
    exactly the deserialized content, whatever it is, leaves the disk as it
    was, and makes no call but the opening of that file: no request to the
    primary source and no call to the secondary one. *)
Theorem fresh_readable_cache_is_served (ticker : string)
    (fs : gmap string file) (f : file) (v : value float) :
  fresh w self fs ticker f ->
  can_read w (cache_file self ticker) = true ->
  json_loads rt (content f) = Ok v ->
  get_stock_data rt w self ticker fs
  = (Ok v, fs, [OpenRead (cache_file self ticker)]).
Proof.
  intros Hfresh Hread Hload.
  apply get_stock_data_hit.
  rewrite (read_cache_fresh _ _ _ Hfresh). unfold loaded.
  now rewrite Hread, Hload.
Qed.

(** With a key configured, the primary attempt starts with the request for
    the daily series, whatever comes of it. *)
Lemma primary_request_first (ticker key : string) (fs : gmap string file) :
  alpha_vantage_key self = Some key ->
  key <> "" ->
  exists rest,
    calls_of (_get_alpha_vantage_data rt w self ticker fs)
    = HttpGet url (series_params ticker key) :: rest.
Proof.
  intros Hkey Hne. unfold _get_alpha_vantage_data. rewrite Hkey.
  apply String.eqb_neq in Hne. rewrite Hne.
  destruct (try_calls_prefix (alpha_vantage_body rt w ticker key)
              (fun _ => ret VNone) fs) as [rest1 ->].
  unfold alpha_vantage_body.
  match goal with
  | |- context [bind ?m ?k fs] =>
      destruct (bind_calls_prefix m k fs) as [rest2 ->]
  end.
  unfold http_get, calls_of.
  destruct (requests_get w url (series_params ticker key)); cbn; eauto.
Qed.

(** C2: when the cache file of a ticker is absent or stale, the calls of
    [get_stock_data] are those of the primary attempt followed by the rest.
    With a key configured the primary attempt is made: the first call of the
    method is the request for the daily series of the ticker to the primary
    source.  The primary attempt makes no call to the secondary source, the
    rest makes no request to the primary source, and the rest calls the
    secondary source exactly when the primary attempt gave [None]. *)
Theorem primary_before_secondary (ticker : string) (fs : gmap string file) :
  absent_or_stale w self fs ticker ->
  exists d1 t1 t2,
    _get_alpha_vantage_data rt w self ticker fs = (Ok d1, fs, t1)
    /\ calls_of (get_stock_data rt w self ticker fs) = t1 ++ t2
    /\ (forall key, alpha_vantage_key self = Some key -> key <> "" ->
        exists rest, t1 = HttpGet url (series_params ticker key) :: rest)
    /\ Forall (fun e => is_secondary e = false) t1
    /\ Forall (fun e => is_primary e = false) t2
    /\ (Exists (fun e => is_secondary e = true) t2 <-> d1 = VNone).
Proof.
  intros Hstale.
  destruct (get_stock_data_live ticker fs [] (read_cache_stale _ _ Hstale))
    as (d1 & t1 & d2 & t2 & H1 & Ht1 & Hd1 & H2 & Ht2 & Hd2 & Hrun).
  rewrite Hrun. clear Hrun. cbn.
  pose proof (truthy_outcome d1 Hd1) as Hnone.
  assert (Hfirst : forall key, alpha_vantage_key self = Some key -> key <> "" ->
            exists rest, t1 = HttpGet url (series_params ticker key) :: rest).
  { intros key Hkey Hne.
    destruct (primary_request_first ticker key fs Hkey Hne) as [rest Hrest].
    rewrite H1 in Hrest. exists rest. exact Hrest. }
  exists d1, t1.
  destruct (truthy rt d1) eqn:Htruthy; cbn; rewrite ?Htruthy.
  - exists [OpenWrite (cache_file self ticker)].
    split; [assumption |]. split; [reflexivity |].
    split; [exact Hfirst |].
    split; [now apply primary_is_not_secondary |].
    split; [repeat constructor |].
    split.
    + intros H. apply Exists_cons in H as [H | H]; [discriminate |].
      now apply Exists_nil in H.
    + intros ->. discriminate.
  - assert (Hsec : Forall (fun e => is_primary e = false)
                     (YfHistory ticker "2y" :: t2))
      by (constructor; auto using secondary_is_not_primary).
    destruct (truthy rt d2) eqn:Htruthy2; cbn.
    + exists ((YfHistory ticker "2y" :: t2)
              ++ [OpenWrite (cache_file self ticker)]).
      split; [assumption |]. split; [now rewrite <- app_assoc |].
      split; [exact Hfirst |].
      split; [now apply primary_is_not_secondary |].
      split; [apply Forall_app; split; auto |].
      split; intros _; [now apply Hnone | now constructor].
    + exists (YfHistory ticker "2y" :: t2).
      split; [assumption |]. split; [reflexivity |].
      split; [exact Hfirst |].
      split; [now apply primary_is_not_secondary |].
      split; [assumption |].
      split; intros _; [now apply Hnone | now constructor].
Qed.

(** On a disk that nothing else touches during the call, [get_stock_data]
    returns a value for every ticker and every behaviour of the sources; so
    do the attempt at the primary source and the attempt at the secondary
    source, whose errors become [None], on any disk. *)
Lemma get_stock_data_never_raises (ticker : string) (fs : gmap string file) :
  (exists v fs' t, get_stock_data rt w self ticker fs = (Ok v, fs', t))
  /\ (exists d t, _get_alpha_vantage_data rt w self ticker fs = (Ok d, fs, t))
  /\ (exists d t, _get_yahoo_finance_data w ticker fs = (Ok d, fs, t)).
Proof.
  split; [| split].
  - destruct (read_cache_outcome ticker fs) as (o & t0 & Hread & _ & _).
    destruct o as [v |].
    + rewrite (get_stock_data_hit _ _ _ _ Hread). eauto.
    + destruct (get_stock_data_live ticker fs t0 Hread)
        as (d1 & t1 & d2 & t2 & _ & _ & _ & _ & _ & _ & ->).
      cbn. destruct (truthy rt (if truthy rt d1 then d1 else d2)); eauto.
  - destruct (alpha_vantage_outcome ticker fs) as (d & t & H & _). eauto.
  - destruct (yahoo_finance_outcome ticker fs) as (d & t & H & _). eauto.
Qed.

Lemma read_cache_miss (ticker : string) (fs : gmap string file) :
  cache_miss rt w self fs ticker ->
  exists t0,
    read_cache rt w self ticker fs = (Ok None, fs, t0)
    /\ Forall (fun e => is_network e = false) t0.
Proof.
  intros Hmiss.
  destruct (read_cache_outcome ticker fs) as (o & t0 & Hread & Ht0 & Ho).
  destruct o as [v |].
  - exfalso. apply (Hmiss v). now apply Ho.
  - exists t0. split; [assumption |].
    destruct Ht0 as [-> | ->]; repeat constructor.
Qed.

(** On a miss, a primary attempt that gives [None] is followed by the
    secondary source, whose answer is the answer of the call. *)
Lemma failover (ticker : string) (fs : gmap string file) (t1 : list event) :
  cache_miss rt w self fs ticker ->
  _get_alpha_vantage_data rt w self ticker fs = (Ok VNone, fs, t1) ->
  exists t0 d2 t2 t3,
    _get_yahoo_finance_data w ticker fs
    = (Ok d2, fs, YfHistory ticker "2y" :: t2)
    /\ result_of (get_stock_data rt w self ticker fs) = Ok d2
    /\ calls_of (get_stock_data rt w self ticker fs)
       = t0 ++ t1 ++ (YfHistory ticker "2y" :: t2) ++ t3
    /\ Forall (fun e => is_network e = false) t0
    /\ Forall (fun e => is_network e = false) t3.
Proof.
  intros Hmiss Hprimary.
  destruct (read_cache_miss ticker fs Hmiss) as (t0 & Hread & Ht0).
  destruct (get_stock_data_live ticker fs t0 Hread)
    as (d1 & t1' & d2 & t2 & H1 & _ & _ & H2 & _ & _ & Hrun).
  rewrite Hprimary in H1. injection H1 as <- <-.
  rewrite Hrun. clear Hrun. cbn.
  exists t0, d2, t2.
  destruct (truthy rt d2).
  - exists [OpenWrite (cache_file self ticker)].
    split; [assumption |]. split; [reflexivity |].
    split; [cbn; now rewrite <- !app_assoc |].
    split; [assumption | repeat constructor].
  - exists [].
    split; [assumption |]. split; [reflexivity |].
    split; [cbn; now rewrite app_nil_r |].
    split; [assumption | constructor].
Qed.

Lemma has_error_key_dict (items : list (string * value float)) :
  has_error_key (VDict items)
  = Ok (bool_decide (has_error_indicator items)).
Proof.
  unfold has_error_key, has_error_indicator, res_bind, py_in.
  destruct (assoc "Error Message" items) as [v |].
  - rewrite bool_decide_eq_true_2 by eauto.
    now rewrite bool_decide_eq_true_2 by eauto.
  - rewrite (bool_decide_eq_false_2 (is_Some None)) by (intros [? ?]; discriminate).
    destruct (assoc "Information" items) as [v |].
    + rewrite bool_decide_eq_true_2 by eauto.
      now rewrite bool_decide_eq_true_2 by eauto.
    + rewrite (bool_decide_eq_false_2 (is_Some None)) by (intros [? ?]; discriminate).
      f_equal. apply bool_decide_ext.
      split; [auto |].
      intros [[? ?] | [[? ?] | ?]]; [discriminate | discriminate | assumption].
Qed.

Lemma network_is_not_write (t : list event) :
  Forall (fun e => is_network e = true) t ->
  Forall (fun e => is_write e = false) t.
Proof.
  intros Ht. eapply Forall_impl; [exact Ht |].
  intros [] H; cbn in *; congruence.
Qed.

Lemma no_write_among (t : list event) :
  Forall (fun e => is_write e = false) t ->
  ~ Exists (fun e => is_write e = true) t.
Proof.
  intros Hall Hsome. apply Exists_exists in Hsome as (e & Hin & He).
  rewrite Forall_forall in Hall. specialize (Hall e Hin). congruence.
Qed.

(** C4: when the primary source and the secondary source both give [None],
    [get_stock_data] leaves every file as it was, opens none for writing, and
    returns [None] unless the cache served the call; and whenever the call
    opens a file for writing or changes the disk, what it returns is a record
    that one of the two sources just gave. *)
Theorem failed_fetch_keeps_cache (ticker : string) (fs : gmap string file) :
  (both_sources_fail rt w self fs ticker ->
   files_of (get_stock_data rt w self ticker fs) = fs
   /\ Forall (fun e => is_write e = false)
        (calls_of (get_stock_data rt w self ticker fs))
   /\ (cache_miss rt w self fs ticker ->
       result_of (get_stock_data rt w self ticker fs) = Ok VNone))
  /\ (Exists (fun e => is_write e = true)
        (calls_of (get_stock_data rt w self ticker fs))
      \/ files_of (get_stock_data rt w self ticker fs) <> fs ->
      exists d,
        result_of (get_stock_data rt w self ticker fs) = Ok d
        /\ live_record rt w self fs ticker d).
Proof.
  unfold both_sources_fail, live_record.
  destruct (read_cache_outcome ticker fs) as (o & t0 & Hread & Ht0 & Ho).
  assert (Hquiet : Forall (fun e => is_write e = false) t0)
    by (destruct Ht0 as [-> | ->]; repeat constructor).
  destruct o as [v |].
  - rewrite (get_stock_data_hit _ _ _ _ Hread). cbn.
    split.
    + intros _. repeat split; auto.
      intros Hmiss. exfalso. apply (Hmiss v). now apply Ho.
    + intros [Hwrite | Hchanged]; [| congruence].
      exfalso. exact (no_write_among _ Hquiet Hwrite).
  - destruct (get_stock_data_live ticker fs t0 Hread)
      as (d1 & t1 & d2 & t2 & H1 & Ht1 & Hd1 & H2 & Ht2 & Hd2 & Hrun).
    rewrite Hrun, H1, H2. clear Hrun. cbn.
    assert (Hlive : Forall (fun e => is_write e = false)
                      (t0 ++ t1 ++ YfHistory ticker "2y" :: t2)).
    { apply Forall_app. split; [assumption |].
      apply Forall_app. split.
      - apply network_is_not_write. eapply Forall_impl; [exact Ht1 |].
        intros e He. unfold is_network. now rewrite He.
      - constructor; [reflexivity |].
        apply network_is_not_write. eapply Forall_impl; [exact Ht2 |].
        intros e He. unfold is_network. rewrite He. apply orb_true_r. }
    split.
    + intros [[= ->] [= ->]]. cbn. repeat split; auto.
    + destruct (truthy rt d1) eqn:Htruthy1; cbn; rewrite ?Htruthy1; cbn.
      * intros _. exists d1. repeat split; auto.
        destruct Hd1 as [-> | Hd1]; [discriminate | assumption].
      * destruct (truthy rt d2) eqn:Htruthy2; cbn.
        -- intros _. exists d2. split; [reflexivity |]. split.
           ++ destruct Hd2 as [-> | Hd2]; [discriminate | assumption].
           ++ right. split; [| reflexivity].
              f_equal. now apply (truthy_outcome d1 Hd1).
        -- intros [Hwrite | Hchanged]; [| congruence].
           exfalso. exact (no_write_among _ Hlive Hwrite).
Qed.

(** C6: when a key is configured and the primary source answers the request
    for the time series with status 200 and a JSON object that carries
    "Error Message", "Information" or "Note", or whose time series is missing
    or empty, the primary attempt gives [None] after that one request,
    without raising; and on a cache miss the call goes on to the secondary
    source and returns what it gives. *)
Theorem error_body_fails_over (ticker key : string)
    (items : list (string * value float)) (fs : gmap string file) :
  alpha_vantage_key self = Some key ->
  key <> "" ->
  requests_get w url (series_params ticker key)
  = Response 200 (Ok (VDict items)) ->
  has_error_indicator items \/ empty_series rt items ->
  _get_alpha_vantage_data rt w self ticker fs
  = (Ok VNone, fs, [HttpGet url (series_params ticker key)])
  /\ (cache_miss rt w self fs ticker ->
      exists t0 d2 t2 t3,
        _get_yahoo_finance_data w ticker fs
        = (Ok d2, fs, YfHistory ticker "2y" :: t2)
        /\ result_of (get_stock_data rt w self ticker fs) = Ok d2
        /\ calls_of (get_stock_data rt w self ticker fs)
           = t0 ++ [HttpGet url (series_params ticker key)]
                ++ (YfHistory ticker "2y" :: t2) ++ t3
        /\ Forall (fun e => is_network e = false) t0
        /\ Forall (fun e => is_network e = false) t3).
Proof.
  intros Hkey Hne Hget Hbody.
  assert (Hprimary : _get_alpha_vantage_data rt w self ticker fs
                     = (Ok VNone, fs, [HttpGet url (series_params ticker key)])).
  { unfold _get_alpha_vantage_data. rewrite Hkey.
    apply String.eqb_neq in Hne. rewrite Hne.
    assert (Hbody' : alpha_vantage_body rt w ticker key fs
                     = (Ok VNone, fs, [HttpGet url (series_params ticker key)])).
    { unfold alpha_vantage_body, bind at 1, http_get. rewrite Hget.
      cbn [status_code json Z.eqb Pos.eqb negb].
      rewrite bind_lift_ok, has_error_key_dict, bind_lift_ok.
      destruct (bool_decide (has_error_indicator items)) eqn:Herr.
      - clear Herr. unfold error_message, res_bind, py_get.
        destruct (assoc "Note" items), (assoc "Information" items),
          (assoc "Error Message" items); reflexivity.
      - destruct Hbody as [Hbody | Hbody].
        + apply bool_decide_eq_false_1 in Herr. contradiction.
        + unfold empty_series in Hbody. unfold py_get.
          destruct (assoc "Time Series (Daily)" items) as [time_series |];
            rewrite bind_lift_ok.
          * now rewrite Hbody.
          * reflexivity. }
    unfold try_except. now rewrite Hbody'. }
  split; [exact Hprimary |].
  intros Hmiss. exact (failover ticker fs _ Hmiss Hprimary).
Qed.

(** C7: when no key is configured, absent or empty, [get_stock_data] makes
    no request to the primary source, whatever the cache holds; and on a
    cache miss the first call that leaves the process is the request for the
    history to the secondary source, whose answer the call returns. *)
Theorem no_key_no_request (ticker : string) (fs : gmap string file) :
  alpha_vantage_key self = None \/ alpha_vantage_key self = Some "" ->
  Forall (fun e => is_primary e = false)
    (calls_of (get_stock_data rt w self ticker fs))
  /\ (cache_miss rt w self fs ticker ->
      exists t0 d2 t2 t3,
        _get_yahoo_finance_data w ticker fs
        = (Ok d2, fs, YfHistory ticker "2y" :: t2)
        /\ result_of (get_stock_data rt w self ticker fs) = Ok d2
        /\ calls_of (get_stock_data rt w self ticker fs)
           = t0 ++ (YfHistory ticker "2y" :: t2) ++ t3
        /\ Forall (fun e => is_network e = false) t0
        /\ Forall (fun e => is_network e = false) t3).
Proof.
  intros Hkey.
  assert (Hprimary : _get_alpha_vantage_data rt w self ticker fs
                     = (Ok VNone, fs, [])).
  { unfold _get_alpha_vantage_data. destruct Hkey as [-> | ->]; reflexivity. }
  split.
  - destruct (read_cache_outcome ticker fs) as (o & t0 & Hread & Ht0 & _).
    assert (Hquiet : Forall (fun e => is_primary e = false) t0)
      by (destruct Ht0 as [-> | ->]; repeat constructor).
    destruct o as [v |].
    + now rewrite (get_stock_data_hit _ _ _ _ Hread).
    + destruct (get_stock_data_live ticker fs t0 Hread)
        as (d1 & t1 & d2 & t2 & H1 & _ & _ & _ & Ht2 & _ & Hrun).
      rewrite Hprimary in H1. injection H1 as <- <-.
      rewrite Hrun. clear Hrun. cbn.
      assert (Hsec : Forall (fun e => is_primary e = false)
                       (YfHistory ticker "2y" :: t2))
        by (constructor; auto using secondary_is_not_primary).
      destruct (truthy rt d2); cbn.
      * apply Forall_app. split; [assumption |].
        constructor; [reflexivity |].
        apply Forall_app.
        split; [now apply secondary_is_not_primary | repeat constructor].
      * apply Forall_app. split; assumption.
  - intros Hmiss. exact (failover ticker fs [] Hmiss Hprimary).
Qed.


(** ** Normalisation of the primary time series *)

Lemma ltb_leb (a b : string) : String.ltb a b = true -> String.leb a b = true.
Proof.
  unfold String.ltb, String.leb. now destruct (String.compare a b).
Qed.

Lemma not_ltb_leb (a b : string) :
  String.ltb a b = false -> String.leb b a = true.
Proof.
  unfold String.ltb, String.leb. rewrite (String.compare_antisym b a).
  now destruct (String.compare a b).
Qed.

Lemma insert_desc_descending (x : value float) (l : list (value float)) :
  dates_descending l -> dates_descending (insert_desc x l).
Proof.
  unfold dates_descending.
  induction l as [| y l IH]; intros Hl; cbn.
  - repeat constructor.
  - destruct (String.ltb (date_of x) (date_of y)) eqn:Hlt.
    + inversion Hl as [| ? ? Hsorted Hhd]; subst.
      constructor; [now apply IH |].
      destruct l as [| z l]; cbn.
      * constructor. now apply ltb_leb.
      * destruct (String.ltb (date_of x) (date_of z)).
        -- inversion Hhd; subst. now constructor.
        -- constructor. now apply ltb_leb.
    + constructor; [assumption |]. constructor. now apply not_ltb_leb.
Qed.

Lemma sort_desc_descending (l : list (value float)) :
  dates_descending (sort_desc l).
Proof.
  induction l as [| x l IH]; cbn.
  - constructor.
  - now apply insert_desc_descending.
Qed.

Lemma insert_desc_perm (x : value float) (l : list (value float)) :
  Permutation (x :: l) (insert_desc x l).
Proof.
  induction l as [| y l IH]; cbn.
  - reflexivity.
  - destruct (String.ltb (date_of x) (date_of y)).
    + rewrite perm_swap. now constructor.
    + reflexivity.
Qed.

(** The sort keeps every price and drops none. *)
Lemma sort_desc_perm (l : list (value float)) : Permutation l (sort_desc l).
Proof.
  induction l as [| x l IH]; cbn.
  - constructor.
  - rewrite <- insert_desc_perm. now constructor.
Qed.

(** Whatever the series, the prices the primary path produces are in
    descending order of date. *)
Lemma time_series_descending (time_series : value float)
    (prices : list (value float)) :
  _process_alpha_vantage_time_series rt time_series = Ok prices ->
  dates_descending prices.
Proof.
  unfold _process_alpha_vantage_time_series, res_bind.
  destruct (py_items time_series) as [items | e]; [| discriminate].
  destruct (res_map (price_of_item rt) items) as [l | e]; [| discriminate].
  intros [= <-]. apply sort_desc_descending.
Qed.

Lemma quiet_alpha_vantage_prices (ticker key : string) :
  quiet primary_only (fun d => dates_descending (prices_of d))
    (alpha_vantage_body rt w ticker key).
Proof.
  unfold alpha_vantage_body.
  repeat quiet_step; cbn.
  all: try (now constructor).
  all: cbn beta in *; eapply time_series_descending; eassumption.
Qed.

(** Every record of the primary source has its prices most recent first. *)
Lemma primary_prices_descending (ticker : string) (fs : gmap string file) :
  dates_descending
    (prices_of
       (match result_of (_get_alpha_vantage_data rt w self ticker fs) with
        | Ok d => d
        | Raise _ => VNone
        end)).
Proof.
  unfold _get_alpha_vantage_data.
  destruct (alpha_vantage_key self) as [key |]; [| constructor].
  destruct (String.eqb key ""); [constructor |].
  destruct (quiet_try_ret primary_only
              (fun d => dates_descending (prices_of d))
              (alpha_vantage_body rt w ticker key) VNone
              (quiet_alpha_vantage_prices ticker key)
              (Sorted_nil _) fs) as (d & t & -> & _ & Hd).
  exact Hd.
Qed.

(** The secondary path keeps the rows in the order of the frame. *)
Lemma yahoo_prices_in_frame_order (ticker : string) (fs : gmap string file)
    (row : bar float) (rows : list (bar float))
    (i : list (string * value float)) :
  yf_history w ticker "2y" = Ok (row :: rows) ->
  yf_info w ticker = Ok i ->
  exists d,
    result_of (_get_yahoo_finance_data w ticker fs) = Ok d
    /\ prices_of d = map price_of_bar (row :: rows).
Proof.
  intros Hrows Hinfo.
  unfold _get_yahoo_finance_data, try_except, yahoo_finance_body, bind,
    history, info, ret.
  rewrite Hrows. cbn. rewrite Hinfo. cbn. eauto.
Qed.

(** ** The name of the cache file *)

Lemma lower_ascii_same_letter (c d : ascii) :
  same_letter c d -> lower_ascii c = lower_ascii d.
Proof.
  unfold same_letter, lower_ascii.
  intros [Heq | [[Hc Hd] | [Hd Hc]]].
  - f_equal. rewrite <- (ascii_nat_embedding c), <- (ascii_nat_embedding d).
    now rewrite Heq.
  - rewrite Hd.
    destruct (Nat.leb_spec 65 (nat_of_ascii c)); [| lia].
    destruct (Nat.leb_spec (nat_of_ascii c) 90); [| lia].
    destruct (Nat.leb_spec (nat_of_ascii c + 32) 90); [lia |].
    rewrite andb_false_r. cbn [andb].
    now rewrite <- Hd, ascii_nat_embedding.
  - rewrite Hc.
    destruct (Nat.leb_spec 65 (nat_of_ascii d)); [| lia].
    destruct (Nat.leb_spec (nat_of_ascii d) 90); [| lia].
    destruct (Nat.leb_spec (nat_of_ascii d + 32) 90); [lia |].
    rewrite andb_false_r. cbn [andb].
    now rewrite <- Hc, ascii_nat_embedding.
Qed.

Lemma lower_same_letters (a b : string) :
  same_letters a b -> lower a = lower b.
Proof.
  induction 1 as [| c d s t Hcd _ IH]; cbn.
  - reflexivity.
  - now rewrite (lower_ascii_same_letter c d Hcd), IH.
Qed.

Lemma lower_ascii_sep (c : ascii) :
  Ascii.eqb "/" (lower_ascii c) = Ascii.eqb "/" c.
Proof.
  destruct c as [[] [] [] [] [] [] [] []]; reflexivity.
Qed.

(** Lower-casing neither removes nor adds a separator, and the suffix has
    none: the file name has a separator exactly when the ticker has one. *)
Lemma has_sep_cache_file_name (ticker : string) :
  has_sep (cache_file_name ticker) = has_sep ticker.
Proof.
  induction ticker as [| c s IH].
  - reflexivity.
  - change (Ascii.eqb "/" (lower_ascii c) || has_sep (cache_file_name s)
            = Ascii.eqb "/" c || has_sep s).
    now rewrite lower_ascii_sep, IH.
Qed.

(** Every file [get_stock_data] opens is the cache file of the ticker. *)
Lemma opens_only_cache_file (ticker : string) (fs : gmap string file) :
  Forall (fun e => forall path, opened e = Some path ->
                                path = cache_file self ticker)
    (calls_of (get_stock_data rt w self ticker fs)).
Proof.
  assert (Hnet : forall t, Forall (fun e => is_network e = true) t ->
            Forall (fun e => forall path, opened e = Some path ->
                                          path = cache_file self ticker) t).
  { intros t Ht. eapply Forall_impl; [exact Ht |].
    intros e He p Hp. destruct e; cbn in *; congruence. }
  assert (Hfile : forall e, e = OpenRead (cache_file self ticker)
                            \/ e = OpenWrite (cache_file self ticker) ->
            forall path, opened e = Some path -> path = cache_file self ticker).
  { intros e [-> | ->] path [= <-]; reflexivity. }
  destruct (read_cache_outcome ticker fs) as (o & t0 & Hread & Ht0 & _).
  assert (H0 : Forall (fun e => forall path, opened e = Some path ->
                                   path = cache_file self ticker) t0).
  { destruct Ht0 as [-> | ->]; repeat constructor. apply Hfile. auto. }
  destruct o as [v |].
  - now rewrite (get_stock_data_hit _ _ _ _ Hread).
  - destruct (get_stock_data_live ticker fs t0 Hread)
      as (d1 & t1 & d2 & t2 & _ & Ht1 & _ & _ & Ht2 & _ & Hrun).
    rewrite Hrun. clear Hrun. cbn.
    assert (H1 : Forall (fun e => is_network e = true) t1).
    { eapply Forall_impl; [exact Ht1 |].
      intros e He. unfold is_network. now rewrite He. }
    assert (H2 : Forall (fun e => is_network e = true)
                   (YfHistory ticker "2y" :: t2)).
    { constructor; [reflexivity |]. eapply Forall_impl; [exact Ht2 |].
      intros e He. unfold is_network. rewrite He. apply orb_true_r. }
    apply Hnet in H1. apply Hnet in H2.
    assert (Hw : Forall (fun e => forall path, opened e = Some path ->
                                    path = cache_file self ticker)
                   [OpenWrite (cache_file self ticker)]).
    { repeat constructor. apply Hfile. auto. }
    destruct (truthy rt d1) eqn:Hd1; cbn; rewrite ?Hd1; cbn.
    + repeat (apply Forall_app; split); assumption.
    + destruct (truthy rt d2); cbn;
        repeat (apply Forall_app; split); assumption.
Qed.

(** C9, amended: the path of the cache file is a function of the lower-cased
    ticker and of nothing else, with no other sanitization: two ASCII tickers
    that differ only in letter case have the same cache file, every file the
    call opens for either of them is that file, and the name of the file is
    free of path separators exactly when the ticker is free of them. *)
Theorem cache_file_ignores_case (a b : string) (fs : gmap string file) :
  isascii a = true ->
  same_letters a b ->
  cache_file self a = cache_file self b
  /\ Forall (fun e => forall path, opened e = Some path ->
                                   path = cache_file self a)
       (calls_of (get_stock_data rt w self a fs))
  /\ Forall (fun e => forall path, opened e = Some path ->
                                   path = cache_file self a)
       (calls_of (get_stock_data rt w self b fs))
  /\ safe_name (cache_file_name a) = negb (has_sep a).
Proof.
  intros _ Hab.
  assert (Hsame : cache_file self a = cache_file self b).
  { unfold cache_file, cache_file_name. now rewrite (lower_same_letters a b Hab). }
  split; [exact Hsame |].
  split; [apply opens_only_cache_file |].
  split; [rewrite Hsame; apply opens_only_cache_file |].
  unfold safe_name. now rewrite has_sep_cache_file_name.
Qed.

(** ** A field missing from an entry of the primary series *)

Lemma assoc_app_absent (k k' : string) (d : value float)
    (items : list (string * value float)) :
  assoc k items = None ->
  assoc k' (items ++ [(k, d)])
  = match assoc k' items with
    | Some v => Some v
    | None => if String.eqb k k' then Some d else None
    end.
Proof.
  induction items as [| [k0 v0] items IH]; cbn; intros Habsent.
  - reflexivity.
  - destruct (String.eqb k0 k); [discriminate |].
    destruct (String.eqb k0 k'); [reflexivity | now apply IH].
Qed.

(** Reading with the default a key that was added with the default is reading
    the dict without it. *)
Lemma py_get_explicit_default (k k' : string)
    (items : list (string * value float)) :
  assoc k items = None ->
  py_get (VDict (items ++ [(k, VInt 0)])) k' (VInt 0)
  = py_get (VDict items) k' (VInt 0).
Proof.
  intros Habsent. unfold py_get. rewrite (assoc_app_absent _ _ _ _ Habsent).
  destruct (assoc k' items); [reflexivity |].
  now destruct (String.eqb k k').
Qed.

Ltac other_field Hothers k' :=
  let x := fresh "x" in
  let H := fresh "H" in
  destruct (Hothers k') as [x H];
  [cbn; tauto | discriminate | unfold converted, res_bind, py_get in H; cbn in H].

Ltac settle_fields items Hzero :=
  repeat match goal with
    | H : context [assoc ?k items] |- _ =>
        destruct (assoc k items) as [? |]; cbn in H; rewrite ?Hzero in H;
        cbn in H
    | H : match ?r with Ok _ => _ | Raise _ => _ end = Ok _ |- _ =>
        destruct r; cbn in H; [| discriminate H]
    end;
  cbn [py_float py_int]; rewrite ?Hzero;
  eexists; repeat split; reflexivity.

(** C10: when an entry of the primary time series has no value under one of
    the keys "1. open" to "5. volume", the price dict built from it is the
    one built from the entry with an explicit 0 under that key; and provided
    the other four fields convert, a price dict is produced, with the date
    of the entry and, for the missing field, [float(0)] if it is a price and
    the integer 0 if it is the volume. *)
Theorem missing_field_reads_as_zero (date k : string)
    (items : list (string * value float)) (zero : float) :
  In k ohlcv_keys ->
  assoc k items = None ->
  float_of_int rt 0 = Ok zero ->
  (forall k', In k' ohlcv_keys -> k' <> k ->
              exists x, converted rt items k' = Ok x) ->
  price_of_item rt (date, VDict items)
  = price_of_item rt (date, VDict (items ++ [(k, VInt 0)]))
  /\ exists p,
      price_of_item rt (date, VDict items) = Ok p
      /\ price_field p "date" = Some (VStr date)
      /\ price_field p (canonical k) = Some (zero_of zero k).
Proof.
  intros Hin Habsent Hzero Hothers. split.
  - unfold price_of_item.
    now rewrite !(py_get_explicit_default k) by assumption.
  - unfold ohlcv_keys in Hin. cbn in Hin.
    destruct Hin as [<- | [<- | [<- | [<- | [<- | []]]]]].
    + other_field Hothers "2. high". other_field Hothers "3. low".
      other_field Hothers "4. close". other_field Hothers "5. volume".
      unfold price_of_item, res_bind, py_get. rewrite Habsent. clear Habsent.
      settle_fields items Hzero.
    + other_field Hothers "1. open". other_field Hothers "3. low".
      other_field Hothers "4. close". other_field Hothers "5. volume".
      unfold price_of_item, res_bind, py_get. rewrite Habsent. clear Habsent.
      settle_fields items Hzero.
    + other_field Hothers "1. open". other_field Hothers "2. high".
      other_field Hothers "4. close". other_field Hothers "5. volume".
      unfold price_of_item, res_bind, py_get. rewrite Habsent. clear Habsent.
      settle_fields items Hzero.
    + other_field Hothers "1. open". other_field Hothers "2. high".
      other_field Hothers "3. low". other_field Hothers "5. volume".
      unfold price_of_item, res_bind, py_get. rewrite Habsent. clear Habsent.
      settle_fields items Hzero.
    + other_field Hothers "1. open". other_field Hothers "2. high".
      other_field Hothers "3. low". other_field Hothers "4. close".
      unfold price_of_item, res_bind, py_get. rewrite Habsent. clear Habsent.
      settle_fields items Hzero.
Qed.

End Properties.

(** * The claims on concrete runs *)

Import Scenario.

(** C1, as stated, fails: the cache file of AAPL exists and is 1000 s old,
    under the duration of 3600 s, but its text does not deserialize; the call
    asks the primary source. *)
Lemma fresh_corrupt_cache_goes_live :
  fresh world_primary with_key (disk 4000 "{ticker") "AAPL"
    {| mtime := 4000; content := "{ticker" |}
  /\ Exists (fun e => is_network e = true)
       (calls_of (get_stock_data (python []) world_primary with_key "AAPL"
                    (disk 4000 "{ticker"))).
Proof.
  split.
  - split; [reflexivity |]. unfold Qlt. vm_compute. reflexivity.
  - vm_compute. apply Exists_cons_tl. apply Exists_cons_hd. reflexivity.
Qed.

(** A record cached 1000 s ago is served from the file. *)
Lemma fresh_readable_cache_is_served_witness :
  get_stock_data (python [cached_record]) world_primary with_key "AAPL"
    (disk 4000 (show cached_record))
  = (Ok cached_record, disk 4000 (show cached_record), [OpenRead aapl_path]).
Proof.
  apply (fresh_readable_cache_is_served (python [cached_record]) world_primary
           with_key "AAPL" (disk 4000 (show cached_record))
           {| mtime := 4000; content := show cached_record |} cached_record).
  - split; [reflexivity |]. unfold Qlt. vm_compute. reflexivity.
  - reflexivity.
  - vm_compute. reflexivity.
Defined.

(** No cache file, and a primary source that answers with a notice. *)
Lemma primary_before_secondary_witness :
  absent_or_stale world_limited with_key ∅ "AAPL"
  /\ exists d1 t1 t2,
      _get_alpha_vantage_data (python []) world_limited with_key "AAPL" ∅
      = (Ok d1, ∅, t1)
      /\ calls_of (get_stock_data (python []) world_limited with_key "AAPL" ∅)
         = t1 ++ t2
      /\ (forall key, alpha_vantage_key with_key = Some key -> key <> "" ->
          exists rest, t1 = HttpGet url (series_params "AAPL" key) :: rest)
      /\ Forall (fun e => is_secondary e = false) t1
      /\ Forall (fun e => is_primary e = false) t2
      /\ (Exists (fun e => is_secondary e = true) t2 <-> d1 = VNone).
Proof.
  assert (H : absent_or_stale world_limited with_key ∅ "AAPL").
  { intros f [Hf _]. discriminate Hf. }
  split; [exact H |].
  exact (primary_before_secondary (python []) world_limited with_key "AAPL" ∅ H).
Defined.


(** The payload of the specification: entries for 2024-01-02 and 2024-01-03
    come out of the primary path with 2024-01-03 first. *)
Example primary_prices_most_recent_first :
  exists d,
    result_of (get_stock_data (python []) world_primary with_key "AAPL" ∅)
    = Ok d
    /\ map date_of (prices_of d) = ["2024-01-03"; "2024-01-02"].
Proof. eexists. split; vm_compute; reflexivity. Qed.

(** C3 at the failing input: without a key, Yahoo's frame with the rows of
    2024-01-02 and 2024-01-03, in the order Yahoo gives them, yields a record
    whose prices have 2024-01-02 first; they are not in descending order. *)
Theorem yahoo_prices_oldest_first :
  exists d,
    result_of (get_stock_data (python []) world_yahoo without_key "AAPL" ∅)
    = Ok d
    /\ map date_of (prices_of d) = ["2024-01-02"; "2024-01-03"]
    /\ ~ dates_descending (prices_of d).
Proof.
  eexists. split; [vm_compute; reflexivity |].
  split; [vm_compute; reflexivity |].
  intros Hsorted. cbn in Hsorted.
  inversion Hsorted as [| ? ? _ Hhd]; subst.
  inversion Hhd as [| ? ? Hle]; subst.
  vm_compute in Hle. discriminate Hle.
Qed.

(** No source answers, and the cache file is 4000 s old: it stays as it is. *)
Lemma failed_fetch_keeps_cache_witness :
  both_sources_fail (python []) world_down with_key
    (disk 1000 (show cached_record)) "AAPL"
  /\ files_of (get_stock_data (python []) world_down with_key "AAPL"
                (disk 1000 (show cached_record)))
     = disk 1000 (show cached_record)
  /\ Forall (fun e => is_write e = false)
       (calls_of (get_stock_data (python []) world_down with_key "AAPL"
                    (disk 1000 (show cached_record))))
  /\ (cache_miss (python []) world_down with_key
        (disk 1000 (show cached_record)) "AAPL" ->
      result_of (get_stock_data (python []) world_down with_key "AAPL"
                   (disk 1000 (show cached_record)))
      = Ok VNone).
Proof.
  assert (H : both_sources_fail (python []) world_down with_key
                (disk 1000 (show cached_record)) "AAPL").
  { split; vm_compute; reflexivity. }
  split; [exact H |].
  exact (proj1 (failed_fetch_keeps_cache (python []) world_down with_key "AAPL"
                  (disk 1000 (show cached_record))) H).
Defined.

(** The primary source answers 200 with a body that carries "Note". *)
Lemma error_body_fails_over_witness :
  _get_alpha_vantage_data (python []) world_limited with_key "AAPL" ∅
  = (Ok VNone, ∅, [HttpGet url (series_params "AAPL" "demo")])
  /\ (cache_miss (python []) world_limited with_key ∅ "AAPL" ->
      exists t0 d2 t2 t3,
        _get_yahoo_finance_data world_limited "AAPL" ∅
        = (Ok d2, ∅, YfHistory "AAPL" "2y" :: t2)
        /\ result_of (get_stock_data (python []) world_limited with_key "AAPL" ∅)
           = Ok d2
        /\ calls_of (get_stock_data (python []) world_limited with_key "AAPL" ∅)
           = t0 ++ [HttpGet url (series_params "AAPL" "demo")]
                ++ (YfHistory "AAPL" "2y" :: t2) ++ t3
        /\ Forall (fun e => is_network e = false) t0
        /\ Forall (fun e => is_network e = false) t3).
Proof.
  apply (error_body_fails_over (python []) world_limited with_key "AAPL" "demo"
           [("Note", VStr "API call frequency exceeded")] ∅).
  - reflexivity.
  - discriminate.
  - reflexivity.
  - left. right. right. eexists. reflexivity.
Defined.

(** The key is the empty string. *)
Lemma no_key_no_request_witness :
  Forall (fun e => is_primary e = false)
    (calls_of (get_stock_data (python []) world_primary without_key "AAPL" ∅))
  /\ (cache_miss (python []) world_primary without_key ∅ "AAPL" ->
      exists t0 d2 t2 t3,
        _get_yahoo_finance_data world_primary "AAPL" ∅
        = (Ok d2, ∅, YfHistory "AAPL" "2y" :: t2)
        /\ result_of (get_stock_data (python []) world_primary without_key
                       "AAPL" ∅)
           = Ok d2
        /\ calls_of (get_stock_data (python []) world_primary without_key
                      "AAPL" ∅)
           = t0 ++ (YfHistory "AAPL" "2y" :: t2) ++ t3
        /\ Forall (fun e => is_network e = false) t0
        /\ Forall (fun e => is_network e = false) t3).
Proof.
  apply (no_key_no_request (python []) world_primary without_key "AAPL" ∅).
  right. reflexivity.
Defined.



(** C9, as stated, fails: nothing but the case of the ticker is changed, so a
    ticker with separators gives a file name with separators, and an absolute
    one gives a path outside the cache directory. *)
Lemma cache_file_name_not_sanitized :
  safe_name (cache_file_name "../../etc/x") = false
  /\ cache_file with_key "/tmp/X" = "/tmp/x_data.json"
  /\ String.prefix (cache_dir with_key) (cache_file with_key "/tmp/X") = false.
Proof. repeat split; vm_compute; reflexivity. Qed.

(** AAPL and aapl share their cache file. *)
Lemma cache_file_ignores_case_witness :
  isascii "AAPL" = true
  /\ same_letters "AAPL" "aapl"
  /\ cache_file with_key "AAPL" = cache_file with_key "aapl"
  /\ Forall (fun e => forall path, opened e = Some path ->
                                   path = cache_file with_key "AAPL")
       (calls_of (get_stock_data (python []) world_primary with_key "AAPL" ∅))
  /\ Forall (fun e => forall path, opened e = Some path ->
                                   path = cache_file with_key "AAPL")
       (calls_of (get_stock_data (python []) world_primary with_key "aapl" ∅))
  /\ safe_name (cache_file_name "AAPL") = negb (has_sep "AAPL").
Proof.
  assert (H : same_letters "AAPL" "aapl").
  { repeat (apply same_cons; [unfold same_letter; vm_compute; lia |]).
    apply same_empty. }
  split; [reflexivity |].
  split; [exact H |].
  exact (cache_file_ignores_case (python []) world_primary with_key
           "AAPL" "aapl" ∅ eq_refl H).
Defined.

(** An entry with four prices and no volume gives a price dict of volume 0. *)
Lemma missing_field_reads_as_zero_witness :
  price_of_item (python []) ("2024-01-03", VDict entry_without_volume)
  = price_of_item (python [])
      ("2024-01-03", VDict (entry_without_volume ++ [("5. volume", VInt 0)]))
  /\ exists p,
      price_of_item (python []) ("2024-01-03", VDict entry_without_volume)
      = Ok p
      /\ price_field p "date" = Some (VStr "2024-01-03")
      /\ price_field p (canonical "5. volume") = Some (zero_of 0%Q "5. volume").
Proof.
  apply (missing_field_reads_as_zero (python []) "2024-01-03" "5. volume"
           entry_without_volume 0%Q).
  - cbn. tauto.
  - reflexivity.
  - reflexivity.
  - intros k' Hin Hne. cbn in Hin.
    destruct Hin as [<- | [<- | [<- | [<- | [<- | []]]]]];
      eexists; vm_compute; reflexivity.
Defined.

(** * More of the provider *)

Section Coverage.

Context {float : Type}.
Variable rt : runtime float.
Variable w : world float.
Variable self : provider.

(** ** The primary source, answer by answer *)

Lemma with_key_runs_body (ticker key : string) (fs : gmap string file) :
  alpha_vantage_key self = Some key ->
  key <> "" ->
  _get_alpha_vantage_data rt w self ticker fs
  = try_except (alpha_vantage_body rt w ticker key) (fun _ => ret VNone) fs.
Proof.
  intros Hkey Hne. unfold _get_alpha_vantage_data. rewrite Hkey.
  apply String.eqb_neq in Hne. now rewrite Hne.
Qed.

Lemma try_except_ok {A : Type} (m : M A) (h : exn -> M A)
    (fs fs' : gmap string file) (a : A) (t : list event) :
  m fs = (Ok a, fs', t) -> try_except m h fs = (Ok a, fs', t).
Proof. intros H. unfold try_except. now rewrite H. Qed.

Lemma try_except_none {A : Type} (m : M A) (d : A)
    (fs fs' : gmap string file) (e : exn) (t : list event) :
  m fs = (Raise e, fs', t) ->
  try_except m (fun _ => ret d) fs = (Ok d, fs', t).
Proof.
  intros H. unfold try_except, ret. rewrite H. now rewrite app_nil_r.
Qed.

(** X1: whatever the primary source answers, the record that
    [_get_alpha_vantage_data] gives has its prices in descending order of
    date. *)
Theorem primary_record_descending (ticker : string) (fs : gmap string file) :
  exists d t,
    _get_alpha_vantage_data rt w self ticker fs = (Ok d, fs, t)
    /\ dates_descending (prices_of d).
Proof.
  destruct (alpha_vantage_outcome rt w self ticker fs) as (d & t & H & _ & _).
  exists d, t. split; [exact H |].
  pose proof (primary_prices_descending rt w self ticker fs) as Hsorted.
  now rewrite H in Hsorted.
Qed.

Lemma price_of_item_date (date : string) (values p : value float) :
  price_of_item rt (date, values) = Ok p -> date_of p = date.
Proof.
  unfold price_of_item, res_bind.
  repeat match goal with
    | |- context [match ?r with Ok _ => _ | Raise _ => _ end] =>
        destruct r; cbv beta iota; [| discriminate]
    end.
  now intros [= <-].
Qed.

Lemma res_map_dates (items : list (string * value float))
    (l : list (value float)) :
  res_map (price_of_item rt) items = Ok l -> map date_of l = map fst items.
Proof.
  revert l. induction items as [| [date values] items IH];
    cbn [res_map map fst]; intros l.
  - now intros [= <-].
  - unfold res_bind.
    destruct (price_of_item rt (date, values)) as [p |] eqn:Hp;
      [| discriminate].
    destruct (res_map (price_of_item rt) items) as [ps |]; [| discriminate].
    intros [= <-]. cbn [map]. f_equal.
    + exact (price_of_item_date _ _ _ Hp).
    + now apply IH.
Qed.

(** X2: the prices built from a time series are one per entry of the series:
    their dates are the keys of the series, rearranged, and none is lost or
    repeated. *)
Theorem time_series_dates_kept (items : list (string * value float))
    (prices : list (value float)) :
  _process_alpha_vantage_time_series rt (VDict items) = Ok prices ->
  Permutation (map fst items) (map date_of prices)
  /\ length prices = length items.
Proof.
  unfold _process_alpha_vantage_time_series, res_bind. cbn [py_items].
  destruct (res_map (price_of_item rt) items) as [l |] eqn:Hl; [| discriminate].
  intros [= <-].
  pose proof (sort_desc_perm l) as Hperm.
  rewrite <- (res_map_dates _ _ Hl). split.
  - now apply Permutation_map.
  - rewrite <- (Permutation_length Hperm).
    rewrite <- (length_map date_of l), (res_map_dates _ _ Hl).
    apply length_map.
Qed.

Lemma res_map_raises {A B : Type} (f : A -> res B) (l : list A) (x : A)
    (e : exn) :
  In x l -> f x = Raise e -> exists e', res_map f l = Raise e'.
Proof.
  intros Hin Hx. induction l as [| y l IH]; [contradiction |].
  cbn [res_map]. unfold res_bind.
  destruct (f y) as [b |] eqn:Hy; [| eauto].
  destruct Hin as [-> | Hin]; [congruence |].
  destruct (IH Hin) as [e' ->]. eauto.
Qed.

(** The body of [_get_alpha_vantage_data] up to the time series: the request
    is answered 200 with an object without error key, whose time series is
    truthy. *)
Lemma series_reached (ticker key : string)
    (items : list (string * value float)) (time_series : value float)
    (fs : gmap string file) :
  requests_get w url (series_params ticker key)
  = Response 200 (Ok (VDict items)) ->
  ~ has_error_indicator items ->
  assoc "Time Series (Daily)" items = Some time_series ->
  truthy rt time_series = true ->
  alpha_vantage_body rt w ticker key fs
  = (let '(r, fs', t) := after_series rt w ticker key items time_series fs in
     (r, fs', HttpGet url (series_params ticker key) :: t)).
Proof.
  intros Hget Hnoerr Hseries Htruthy.
  unfold alpha_vantage_body, bind at 1, http_get. rewrite Hget.
  cbn [status_code json Z.eqb Pos.eqb negb].
  rewrite bind_lift_ok, has_error_key_dict, bind_lift_ok.
  rewrite (bool_decide_eq_false_2 _ Hnoerr).
  unfold py_get at 1. rewrite Hseries, bind_lift_ok, Htruthy.
  cbn [negb]. reflexivity.
Qed.

(** X3: one entry of the time series that cannot be converted (an entry that
    is not an object, a price that is not a number) makes the primary attempt
    give [None], whatever the other entries hold, and the company overview is
    not requested. *)
Theorem malformed_entry_discards_series (ticker key : string)
    (items entries : list (string * value float))
    (entry : string * value float) (e : exn) (fs : gmap string file) :
  alpha_vantage_key self = Some key ->
  key <> "" ->
  requests_get w url (series_params ticker key)
  = Response 200 (Ok (VDict items)) ->
  ~ has_error_indicator items ->
  assoc "Time Series (Daily)" items = Some (VDict entries) ->
  In entry entries ->
  price_of_item rt entry = Raise e ->
  _get_alpha_vantage_data rt w self ticker fs
  = (Ok VNone, fs, [HttpGet url (series_params ticker key)]).
Proof.
  intros Hkey Hne Hget Hnoerr Hseries Hin Hentry.
  rewrite (with_key_runs_body _ _ _ Hkey Hne).
  assert (Htruthy : truthy rt (VDict entries) = true)
    by (destruct entries; [contradiction | reflexivity]).
  destruct (res_map_raises (price_of_item rt) entries entry e Hin Hentry)
    as [e' Hmap].
  assert (Hrest : exists e'',
            after_series rt w ticker key items (VDict entries) fs
            = (Raise e'', fs, [])).
  { unfold after_series. unfold py_get at 1.
    destruct (assoc "Meta Data" items) as [meta |]; rewrite bind_lift_ok.
    - destruct (py_get meta "3. Last Refreshed" (VStr "")) as [last |];
        [| eauto].
      rewrite bind_lift_ok.
      unfold _process_alpha_vantage_time_series, res_bind. cbn [py_items].
      rewrite Hmap. eauto.
    - cbn [py_get assoc]. rewrite bind_lift_ok.
      unfold _process_alpha_vantage_time_series, res_bind. cbn [py_items].
      rewrite Hmap. eauto. }
  destruct Hrest as [e'' Hrest].
  apply (try_except_none _ _ _ _ e'').
  rewrite (series_reached ticker key items (VDict entries) fs
             Hget Hnoerr Hseries Htruthy).
  now rewrite Hrest.
Qed.

(** X4: a status other than 200, another success code included, makes the
    primary attempt give [None] after that one request; the body is not
    looked at. *)
Theorem other_status_fails (ticker key : string) (st : Z)
    (body : res (value float)) (fs : gmap string file) :
  alpha_vantage_key self = Some key ->
  key <> "" ->
  requests_get w url (series_params ticker key) = Response st body ->
  st <> 200 ->
  _get_alpha_vantage_data rt w self ticker fs
  = (Ok VNone, fs, [HttpGet url (series_params ticker key)]).
Proof.
  intros Hkey Hne Hget Hst.
  rewrite (with_key_runs_body _ _ _ Hkey Hne).
  apply try_except_ok.
  unfold alpha_vantage_body, bind at 1, http_get. rewrite Hget.
  cbn [status_code]. apply Z.eqb_neq in Hst. rewrite Hst. reflexivity.
Qed.

(** X5: a 200 whose body is not JSON, or is JSON but not an object (a list, a
    string, a number, null), makes the primary attempt give [None] after that
    one request. *)
Theorem body_not_an_object_fails (ticker key : string)
    (body : res (value float)) (fs : gmap string file) :
  alpha_vantage_key self = Some key ->
  key <> "" ->
  requests_get w url (series_params ticker key) = Response 200 body ->
  (forall items, body <> Ok (VDict items)) ->
  _get_alpha_vantage_data rt w self ticker fs
  = (Ok VNone, fs, [HttpGet url (series_params ticker key)]).
Proof.
  intros Hkey Hne Hget Hbody.
  rewrite (with_key_runs_body _ _ _ Hkey Hne).
  assert (Hrun : exists r,
            alpha_vantage_body rt w ticker key fs
            = (r, fs, [HttpGet url (series_params ticker key)])
            /\ (r = Ok VNone \/ exists e, r = Raise e)).
  { unfold alpha_vantage_body, bind at 1, http_get. rewrite Hget.
    cbn [status_code json Z.eqb Pos.eqb negb].
    destruct body as [v | e]; [| eexists; split; [reflexivity | eauto]].
    destruct v; try (exfalso; eapply Hbody; reflexivity);
      unfold bind, lift, ret, has_error_key, error_message, res_bind, py_in,
        py_get;
      repeat match goal with
        | |- context [if ?b then _ else _] => destruct b
        end;
      eexists; (split; [reflexivity | eauto]). }
  destruct Hrun as (r & Hrun & [-> | [e ->]]).
  - now apply try_except_ok.
  - now apply (try_except_none _ _ _ _ e).
Qed.

(** With a good series, the body of [_get_alpha_vantage_data] comes to the
    request for the overview with the date and the prices in hand. *)
Lemma overview_reached (ticker key : string) (last_updated : value float)
    (prices : list (value float)) (fs : gmap string file) :
  good_series rt w ticker key last_updated prices ->
  alpha_vantage_body rt w ticker key fs
  = (let '(r, fs', t) :=
       (overview_response <- http_get w url (overview_params ticker key) ;;
        if status_code overview_response =? 200 then
          overview_data <- lift (json overview_response) ;;
          has_symbol <- lift (py_in "Symbol" overview_data) ;;
          if has_symbol : bool
          then ret (VDict (assoc_set "company_info" overview_data
                             (primary_items ticker last_updated prices)))
          else ret (VDict (primary_items ticker last_updated prices))
        else ret (VDict (primary_items ticker last_updated prices)))%M fs in
     (r, fs', HttpGet url (series_params ticker key) :: t)).
Proof.
  intros (items & time_series & Hget & Hnoerr & Hseries & Htruthy & Hlast
          & Hprices).
  rewrite (series_reached _ _ _ _ _ Hget Hnoerr Hseries Htruthy).
  unfold after_series. unfold py_get at 1. unfold py_get at 1 in Hlast.
  destruct (assoc "Meta Data" items) as [meta |]; cbn [res_bind] in Hlast;
    now rewrite bind_lift_ok, Hlast, bind_lift_ok, Hprices, bind_lift_ok.
Qed.

(** X6: when the series is good but the request for the company overview
    gets no response, or a 200 whose body is not JSON, the primary attempt
    gives [None]: the prices it had built are dropped. *)
Theorem lost_overview_discards_prices (ticker key : string)
    (last_updated : value float) (prices : list (value float))
    (fs : gmap string file) :
  alpha_vantage_key self = Some key ->
  key <> "" ->
  good_series rt w ticker key last_updated prices ->
  requests_get w url (overview_params ticker key) = NoResponse
  \/ (exists e, requests_get w url (overview_params ticker key)
                = Response 200 (Raise e)) ->
  _get_alpha_vantage_data rt w self ticker fs
  = (Ok VNone, fs, [HttpGet url (series_params ticker key);
                    HttpGet url (overview_params ticker key)]).
Proof.
  intros Hkey Hne Hgood Hoverview.
  rewrite (with_key_runs_body _ _ _ Hkey Hne).
  destruct Hoverview as [Hov | [e Hov]].
  - apply (try_except_none _ _ _ _ RequestException).
    rewrite (overview_reached _ _ _ _ _ Hgood).
    unfold bind, http_get. now rewrite Hov.
  - apply (try_except_none _ _ _ _ e).
    rewrite (overview_reached _ _ _ _ _ Hgood).
    unfold bind at 1, http_get. rewrite Hov.
    cbn [status_code json Z.eqb Pos.eqb]. reflexivity.
Qed.

(** X7: when the series is good and the overview is answered with a status
    other than 200, or with an object that has no "Symbol", the primary
    attempt gives a record of exactly four items: the ticker as it was
    passed, the source "alphavantage", the date of the last refresh and the
    prices; it has no company information. *)
Theorem record_without_company_info (ticker key : string)
    (last_updated : value float) (prices : list (value float))
    (fs : gmap string file) :
  alpha_vantage_key self = Some key ->
  key <> "" ->
  good_series rt w ticker key last_updated prices ->
  (exists st body, requests_get w url (overview_params ticker key)
                   = Response st body /\ st <> 200)
  \/ (exists overview, requests_get w url (overview_params ticker key)
                       = Response 200 (Ok (VDict overview))
                       /\ assoc "Symbol" overview = None) ->
  _get_alpha_vantage_data rt w self ticker fs
  = (Ok (VDict [("ticker", VStr ticker); ("source", VStr "alphavantage");
                ("last_updated", last_updated); ("prices", VList prices)]),
     fs, [HttpGet url (series_params ticker key);
          HttpGet url (overview_params ticker key)]).
Proof.
  intros Hkey Hne Hgood Hoverview.
  rewrite (with_key_runs_body _ _ _ Hkey Hne).
  apply try_except_ok.
  rewrite (overview_reached _ _ _ _ _ Hgood).
  destruct Hoverview as [(st & body & Hov & Hst) | (overview & Hov & Hsym)].
  - unfold bind, http_get. rewrite Hov. cbn [status_code].
    apply Z.eqb_neq in Hst. now rewrite Hst.
  - unfold bind at 1, http_get. rewrite Hov.
    cbn [status_code json Z.eqb Pos.eqb].
    rewrite bind_lift_ok. cbn [py_in]. rewrite Hsym.
    rewrite bool_decide_eq_false_2 by (intros [? ?]; discriminate).
    now rewrite bind_lift_ok.
Qed.

(** X8: when the series is good and the overview is answered 200 with an
    object that has a "Symbol", the record of the primary attempt carries
    that object, as it came, under "company_info", after the four other
    items. *)
Theorem record_with_company_info (ticker key : string)
    (last_updated : value float) (prices : list (value float))
    (overview : list (string * value float)) (fs : gmap string file) :
  alpha_vantage_key self = Some key ->
  key <> "" ->
  good_series rt w ticker key last_updated prices ->
  requests_get w url (overview_params ticker key)
  = Response 200 (Ok (VDict overview)) ->
  is_Some (assoc "Symbol" overview) ->
  _get_alpha_vantage_data rt w self ticker fs
  = (Ok (VDict [("ticker", VStr ticker); ("source", VStr "alphavantage");
                ("last_updated", last_updated); ("prices", VList prices);
                ("company_info", VDict overview)]),
     fs, [HttpGet url (series_params ticker key);
          HttpGet url (overview_params ticker key)]).
Proof.
  intros Hkey Hne Hgood Hov Hsym.
  rewrite (with_key_runs_body _ _ _ Hkey Hne).
  apply try_except_ok.
  rewrite (overview_reached _ _ _ _ _ Hgood).
  unfold bind at 1, http_get. rewrite Hov.
  cbn [status_code json Z.eqb Pos.eqb].
  rewrite bind_lift_ok. cbn [py_in].
  rewrite (bool_decide_eq_true_2 _ Hsym).
  now rewrite bind_lift_ok.
Qed.

(** ** The secondary source, answer by answer *)

(** X9: when the history of the secondary source is empty, or the request
    for it raises, the secondary attempt gives [None] and the company
    information is not asked for. *)
Theorem empty_history_fails (ticker : string) (fs : gmap string file) :
  yf_history w ticker "2y" = Ok []
  \/ (exists e, yf_history w ticker "2y" = Raise e) ->
  _get_yahoo_finance_data w ticker fs
  = (Ok VNone, fs, [YfHistory ticker "2y"]).
Proof.
  unfold _get_yahoo_finance_data, try_except, yahoo_finance_body, bind,
    history, ret.
  intros [-> | [e ->]]; reflexivity.
Qed.

(** X10: when the history has rows but reading [stock.info] raises, the
    secondary attempt gives [None]: the rows are dropped. *)
Theorem lost_info_discards_rows (ticker : string) (fs : gmap string file)
    (row : bar float) (rows : list (bar float)) (e : exn) :
  yf_history w ticker "2y" = Ok (row :: rows) ->
  yf_info w ticker = Raise e ->
  _get_yahoo_finance_data w ticker fs
  = (Ok VNone, fs, [YfHistory ticker "2y"; YfInfo ticker]).
Proof.
  intros Hrows Hinfo.
  unfold _get_yahoo_finance_data, try_except, yahoo_finance_body, bind,
    history, info, ret.
  rewrite Hrows. cbn. now rewrite Hinfo.
Qed.

(** X11: when the history has rows and [stock.info] is read, the record of
    the secondary attempt has the ticker as it was passed, the source
    "yahoo", today's date, one price per row in the order of the frame, each
    under the ISO date of its row, and a company information of nine keys
    whose "Symbol" is the ticker. *)
Theorem yahoo_record_shape (ticker : string) (fs : gmap string file)
    (row : bar float) (rows : list (bar float))
    (i : list (string * value float)) :
  yf_history w ticker "2y" = Ok (row :: rows) ->
  yf_info w ticker = Ok i ->
  exists d company,
    _get_yahoo_finance_data w ticker fs
    = (Ok d, fs, [YfHistory ticker "2y"; YfInfo ticker])
    /\ record_field d "ticker" = Some (VStr ticker)
    /\ record_field d "source" = Some (VStr "yahoo")
    /\ record_field d "last_updated" = Some (VStr (strftime_ymd (today w)))
    /\ map date_of (prices_of d)
       = map (fun r => strftime_ymd (bar_date r)) (row :: rows)
    /\ record_field d "company_info" = Some (VDict company)
    /\ map fst company
       = ["Symbol"; "Name"; "Description"; "Exchange"; "Industry"; "Sector";
          "MarketCapitalization"; "PERatio"; "DividendYield"]
    /\ assoc "Symbol" company = Some (VStr ticker).
Proof.
  intros Hrows Hinfo.
  unfold _get_yahoo_finance_data, try_except, yahoo_finance_body, bind,
    history, info, ret.
  rewrite Hrows. cbn. rewrite Hinfo. cbn.
  eexists _, _. split; [reflexivity |].
  repeat split; try reflexivity.
  cbn. f_equal. clear. induction rows as [| r rows IH]; [reflexivity |].
  cbn. now rewrite IH.
Qed.

(** ** The cache file *)

Lemma not_read_primary (t : list event) :
  Forall (fun e => is_primary e = true) t ->
  Forall (fun e => is_read e = false) t.
Proof.
  intros Ht. eapply Forall_impl; [exact Ht |].
  intros [] H; cbn in *; congruence.
Qed.

Lemma not_read_secondary (t : list event) :
  Forall (fun e => is_secondary e = true) t ->
  Forall (fun e => is_read e = false) t.
Proof.
  intros Ht. eapply Forall_impl; [exact Ht |].
  intros [] H; cbn in *; congruence.
Qed.

(** X12: a cache file whose age has reached the duration, the age equal to
    the duration included, is not opened: the call does what lines 61 to 77
    do, and opens no file for reading. *)
Theorem stale_cache_not_opened (ticker : string) (fs : gmap string file) :
  (forall f, fs !! cache_file self ticker = Some f ->
             (inject_Z (cache_duration self) <= clock w - mtime f)%Q) ->
  get_stock_data rt w self ticker fs = live_fetch rt w self ticker fs
  /\ Forall (fun e => is_read e = false)
       (calls_of (get_stock_data rt w self ticker fs)).
Proof.
  intros Hold.
  assert (Hstale : absent_or_stale w self fs ticker).
  { intros f [Hf Hage]. exact (Qlt_not_le _ _ Hage (Hold f Hf)). }
  pose proof (read_cache_stale rt w self ticker fs Hstale) as Hread.
  split.
  - rewrite (get_stock_data_miss rt w self ticker fs [] Hread).
    now destruct (live_fetch rt w self ticker fs) as [[r fs'] t].
  - destruct (get_stock_data_live rt w self ticker fs [] Hread)
      as (d1 & t1 & d2 & t2 & _ & Ht1 & _ & _ & Ht2 & _ & ->).
    apply not_read_primary in Ht1. apply not_read_secondary in Ht2.
    assert (Hyahoo : Forall (fun e => is_read e = false)
                       (YfHistory ticker "2y" :: t2))
      by (constructor; [reflexivity | assumption]).
    assert (Hwrite : Forall (fun e => is_read e = false)
                       [OpenWrite (cache_file self ticker)])
      by (repeat constructor).
    cbn. destruct (truthy rt d1) eqn:Hd1; cbn; rewrite ?Hd1; cbn.
    + apply Forall_app. split; assumption.
    + destruct (truthy rt d2); cbn;
        repeat (apply Forall_app; split); assumption.
Qed.

(** X13: a fresh cache file that cannot be opened, or whose text does not
    deserialize, costs one attempt to read it; after that the call does what
    lines 61 to 77 do, as if there were no file. *)
Theorem unreadable_cache_falls_through (ticker : string)
    (fs : gmap string file) (f : file) (e : exn) :
  fresh w self fs ticker f ->
  loaded rt w (cache_file self ticker) f = Raise e ->
  get_stock_data rt w self ticker fs
  = (result_of (live_fetch rt w self ticker fs),
     files_of (live_fetch rt w self ticker fs),
     OpenRead (cache_file self ticker)
     :: calls_of (live_fetch rt w self ticker fs)).
Proof.
  intros Hfresh Hloaded.
  pose proof (read_cache_fresh rt w self ticker fs f Hfresh) as Hread.
  rewrite Hloaded in Hread.
  now rewrite (get_stock_data_miss rt w self ticker fs _ Hread).
Qed.

Lemma dump_json_frame (path other : string) (data : value float)
    (fs : gmap string file) :
  other <> path ->
  files_of (dump_json rt w path data fs) !! other = fs !! other.
Proof.
  intros Hne. unfold files_of, dump_json.
  destruct (can_write w path); [| reflexivity].
  destruct (json_dumps rt data) as [text | part].
  - destruct (write_fault w path text); cbn;
      now rewrite lookup_insert_ne by congruence.
  - cbn. now rewrite lookup_insert_ne by congruence.
Qed.

Lemma get_stock_data_frame (ticker other : string) (fs : gmap string file) :
  other <> cache_file self ticker ->
  files_of (get_stock_data rt w self ticker fs) !! other = fs !! other.
Proof.
  intros Hne.
  destruct (read_cache_outcome rt w self ticker fs) as (o & t0 & Hread & _ & _).
  destruct o as [v |].
  - now rewrite (get_stock_data_hit rt w self ticker fs v t0 Hread).
  - destruct (get_stock_data_live rt w self ticker fs t0 Hread)
      as (d1 & t1 & d2 & t2 & _ & _ & _ & _ & _ & _ & ->).
    cbn. destruct (truthy rt (if truthy rt d1 then d1 else d2)); cbn.
    + now apply dump_json_frame.
    + reflexivity.
Qed.


Lemma list_ascii_app (a b : string) :
  list_ascii_of_string (a ++ b)
  = list_ascii_of_string a ++ list_ascii_of_string b.
Proof.
  induction a as [| c a IH]; [reflexivity |].
  change (c :: list_ascii_of_string (a ++ b)
          = c :: (list_ascii_of_string a ++ list_ascii_of_string b)).
  now rewrite IH.
Qed.

Lemma list_ascii_inj (a b : string) :
  list_ascii_of_string a = list_ascii_of_string b -> a = b.
Proof.
  intros H.
  rewrite <- (string_of_list_ascii_of_string a),
    <- (string_of_list_ascii_of_string b).
  now rewrite H.
Qed.

Lemma append_inj_l (a b c : string) : (a ++ b = a ++ c)%string -> b = c.
Proof.
  intros H. apply list_ascii_inj.
  apply (f_equal list_ascii_of_string) in H.
  rewrite !list_ascii_app in H. now apply app_inv_head in H.
Qed.

Lemma append_inj_r (a b c : string) : (a ++ c = b ++ c)%string -> a = b.
Proof.
  intros H. apply list_ascii_inj.
  apply (f_equal list_ascii_of_string) in H.
  rewrite !list_ascii_app in H. now apply app_inv_tail in H.
Qed.

Lemma prefix_append (a b : string) : String.prefix a (a ++ b) = true.
Proof.
  induction a as [| c a IH]; [now destruct b |].
  change (String.prefix (String c a) (String c (a ++ b)) = true).
  cbn [String.prefix]. now destruct (ascii_dec c c).
Qed.

(** The name of the cache file of a ticker without separator starts with
    another character than the separator. *)
Lemma name_is_relative (ticker : string) :
  has_sep ticker = false -> starts_with_sep (cache_file_name ticker) = false.
Proof.
  unfold cache_file_name. destruct ticker as [| c s]; [reflexivity |].
  intros Hsep.
  change (has_sep (String c s)) with (Ascii.eqb "/" c || has_sep s) in Hsep.
  apply orb_false_elim in Hsep as [Hc _].
  rewrite <- lower_ascii_sep in Hc.
  change (starts_with_sep (String (lower_ascii c) (lower s ++ "_data.json"))
          = false).
  unfold starts_with_sep.
  destruct (lower_ascii c) as [[] [] [] [] [] [] [] []];
    try reflexivity; discriminate Hc.
Qed.

(** Joining a relative name to the cache directory: the directory, a
    separator unless the directory is empty or ends with one, and the name. *)
Lemma join_relative :
  exists sep : string,
    forall name, starts_with_sep name = false ->
                 path_join (cache_dir self) name
                 = (cache_dir self ++ sep ++ name)%string.
Proof.
  unfold path_join.
  destruct (String.eqb (cache_dir self) "" || ends_with_sep (cache_dir self)).
  - exists "". intros name ->. reflexivity.
  - exists "/". intros name ->. reflexivity.
Qed.

(** X15: the cache file of a ticker without separator lies under the cache
    directory: its path starts with the directory. *)
Theorem cache_file_under_directory (ticker : string) :
  has_sep ticker = false ->
  String.prefix (cache_dir self) (cache_file self ticker) = true.
Proof.
  intros Hsep. unfold cache_file.
  destruct join_relative as [sep Hjoin].
  rewrite (Hjoin _ (name_is_relative ticker Hsep)).
  apply prefix_append.
Qed.

(** X16: two ASCII tickers without separator that differ by more than letter
    case have different cache files, and a call for one leaves the cache file
    of the other as it was. *)
Theorem tickers_do_not_share_cache (a b : string) (fs : gmap string file) :
  isascii a = true ->
  isascii b = true ->
  has_sep a = false ->
  has_sep b = false ->
  lower a <> lower b ->
  cache_file self a <> cache_file self b
  /\ files_of (get_stock_data rt w self a fs) !! cache_file self b
     = fs !! cache_file self b.
Proof.
  intros _ _ Ha Hb Hdiff.
  assert (Hne : cache_file self b <> cache_file self a).
  { unfold cache_file. intros Heq.
    destruct join_relative as [sep Hjoin].
    rewrite (Hjoin _ (name_is_relative a Ha)),
      (Hjoin _ (name_is_relative b Hb)) in Heq.
    apply append_inj_l, append_inj_l in Heq.
    unfold cache_file_name in Heq. apply append_inj_r in Heq.
    congruence. }
  split; [congruence |].
  now apply get_stock_data_frame.
Qed.

(** ** Writes that fail, and the next call *)

(** X17: what the call returns, and the calls it makes, do not depend on
    whether the cache can be written: with any other behaviour of the disk on
    writes, the result and the calls are the same. *)
Theorem write_faults_do_not_show (ticker : string) (fs : gmap string file)
    (writable : string -> bool) (fault : string -> string -> option string) :
  result_of (get_stock_data rt (with_disk w writable fault) self ticker fs)
  = result_of (get_stock_data rt w self ticker fs)
  /\ calls_of (get_stock_data rt (with_disk w writable fault) self ticker fs)
     = calls_of (get_stock_data rt w self ticker fs).
Proof.
  destruct (read_cache_outcome rt w self ticker fs) as (o & t0 & Hread & _ & _).
  assert (Hread' : read_cache rt (with_disk w writable fault) self ticker fs
                   = (Ok o, fs, t0)) by exact Hread.
  destruct o as [v |].
  - rewrite (get_stock_data_hit _ _ _ _ _ _ _ Hread),
      (get_stock_data_hit _ _ _ _ _ _ _ Hread').
    split; reflexivity.
  - destruct (alpha_vantage_outcome rt w self ticker fs)
      as (d1 & t1 & H1 & _ & _).
    destruct (yahoo_finance_outcome w ticker fs) as (d2 & t2 & H2 & _ & _).
    assert (H1' : _get_alpha_vantage_data rt (with_disk w writable fault)
                    self ticker fs = (Ok d1, fs, t1)) by exact H1.
    assert (H2' : _get_yahoo_finance_data (with_disk w writable fault)
                    ticker fs = (Ok d2, fs, YfHistory ticker "2y" :: t2))
      by exact H2.
    rewrite (get_stock_data_miss _ _ _ _ _ _ Hread),
      (get_stock_data_miss _ _ _ _ _ _ Hread').
    rewrite (live_fetch_outcome _ _ _ _ _ _ _ _ _ H1 H2),
      (live_fetch_outcome _ _ _ _ _ _ _ _ _ H1' H2').
    cbn. destruct (truthy rt (if truthy rt d1 then d1 else d2));
      split; reflexivity.
Qed.

(** X18: after a miss whose record was written to the cache, a second call
    made while the file is younger than the duration returns the same record
    from the file: it opens the file and asks no source, provided the file
    can be read and [json.load] reads the text back as the record. *)
Theorem second_call_served_from_cache (w2 : world float) (ticker : string)
    (fs : gmap string file) (data : value float) (text : string) :
  cache_miss rt w self fs ticker ->
  result_of (get_stock_data rt w self ticker fs) = Ok data ->
  truthy rt data = true ->
  write_succeeds rt w (cache_file self ticker) data text ->
  json_loads rt text = Ok data ->
  can_read w2 (cache_file self ticker) = true ->
  (clock w2 - write_clock w < inject_Z (cache_duration self))%Q ->
  get_stock_data rt w2 self ticker
    (files_of (get_stock_data rt w self ticker fs))
  = (Ok data, files_of (get_stock_data rt w self ticker fs),
     [OpenRead (cache_file self ticker)]).
Proof.
  intros Hmiss Hresult Htruthy Hwrite Hround Hread2 Hage.
  assert (Hfile : files_of (get_stock_data rt w self ticker fs)
                    !! cache_file self ticker
                  = Some (written w text)).
  { destruct (read_cache_miss rt w self ticker fs Hmiss) as (t0 & Hread & _).
    destruct (get_stock_data_live rt w self ticker fs t0 Hread)
      as (d1 & t1 & d2 & t2 & _ & _ & _ & _ & _ & _ & Hrun).
    rewrite Hrun in *. clear Hrun. cbn in *.
    destruct (truthy rt (if truthy rt d1 then d1 else d2)) eqn:Hd;
      cbn in *; injection Hresult as Hdata; rewrite Hdata in *;
      [| congruence].
    rewrite (cache_write_succeeds rt w _ _ _ _ Hwrite).
    apply lookup_insert_eq. }
  apply get_stock_data_hit.
  rewrite (read_cache_fresh rt w2 self ticker _ (written w text)).
  - unfold loaded, written. cbn [content]. now rewrite Hread2, Hround.
  - split; [exact Hfile | exact Hage].
Qed.

End Coverage.

(** * The agent *)

Section AgentCoverage.

Context {float : Type} {assistant : Type}.
Variable rt : runtime float.
Variable w : world float.
Variable environ : gmap string string.
Variable makedirs : string -> res unit.
Variable AssistantAgent : string -> string -> value float -> res assistant.

(** The provider always returns. *)
Lemma provider_returns (self : provider) (ticker : string)
    (fs : gmap string file) :
  exists d fs' t, get_stock_data rt w self ticker fs = (Ok d, fs', t).
Proof.
  destruct (read_cache_outcome rt w self ticker fs) as (o & t0 & Hread & _ & _).
  destruct o as [v |].
  - rewrite (get_stock_data_hit _ _ _ _ _ _ _ Hread). eauto.
  - destruct (get_stock_data_live rt w self ticker fs t0 Hread)
      as (d1 & t1 & d2 & t2 & _ & _ & _ & _ & _ & _ & ->).
    cbn. destruct (truthy rt (if truthy rt d1 then d1 else d2)); eauto.
Qed.

Lemma agent_run
    (self : StockDataAgent.instance (float:=float) (assistant:=assistant))
    (ticker : string) (fs : gmap string file) :
  exists d fs' t,
    get_stock_data rt w (StockDataAgent.data_provider self) ticker fs
    = (Ok d, fs', t)
    /\ StockDataAgent.get_stock_data rt w self ticker fs
       = (Ok (if truthy rt d then d else VNone), fs', t).
Proof.
  destruct (provider_returns (StockDataAgent.data_provider self) ticker fs)
    as (d & fs' & t & Hrun).
  exists d, fs', t. split; [exact Hrun |].
  unfold StockDataAgent.get_stock_data, try_except, bind. rewrite Hrun.
  destruct (truthy rt d); cbn; now rewrite app_nil_r.
Qed.

(** X19: the agent never raises; it leaves the disk as the provider leaves
    it and makes the calls the provider makes; what it returns is what the
    provider returns when that is truthy, and [None] otherwise. *)
Theorem agent_returns_record_or_none
    (self : StockDataAgent.instance (float:=float) (assistant:=assistant))
    (ticker : string) (fs : gmap string file) :
  exists d v fs' t,
    get_stock_data rt w (StockDataAgent.data_provider self) ticker fs
    = (Ok d, fs', t)
    /\ StockDataAgent.get_stock_data rt w self ticker fs = (Ok v, fs', t)
    /\ v = (if truthy rt d then d else VNone)
    /\ (v = VNone \/ truthy rt v = true).
Proof.
  destruct (agent_run self ticker fs) as (d & fs' & t & Hrun & Hagent).
  exists d, (if truthy rt d then d else VNone), fs', t.
  repeat split; try assumption.
  destruct (truthy rt d) eqn:Hd; auto.
Qed.

(** X20: a fresh cache file that holds a falsy JSON value (null, an empty
    object or list, 0, an empty string) makes the agent return [None] after
    the read of the file, without asking any source. *)
Theorem falsy_cache_blocks_agent
    (self : StockDataAgent.instance (float:=float) (assistant:=assistant))
    (ticker : string) (fs : gmap string file) (f : file) (v : value float) :
  fresh w (StockDataAgent.data_provider self) fs ticker f ->
  can_read w (cache_file (StockDataAgent.data_provider self) ticker) = true ->
  json_loads rt (content f) = Ok v ->
  truthy rt v = false ->
  StockDataAgent.get_stock_data rt w self ticker fs
  = (Ok VNone, fs,
     [OpenRead (cache_file (StockDataAgent.data_provider self) ticker)]).
Proof.
  intros Hfresh Hread Hload Hfalsy.
  assert (Hrun : get_stock_data rt w (StockDataAgent.data_provider self)
                   ticker fs
                 = (Ok v, fs,
                    [OpenRead (cache_file (StockDataAgent.data_provider self)
                                 ticker)])).
  { apply get_stock_data_hit.
    rewrite (read_cache_fresh rt w _ ticker fs f Hfresh). unfold loaded.
    now rewrite Hread, Hload. }
  unfold StockDataAgent.get_stock_data, try_except, bind. rewrite Hrun.
  now rewrite Hfalsy.
Qed.

(** What [__init__] of the agent gives its provider. *)
Lemma agent_provider
    (config : value float)
    (self : StockDataAgent.instance (float:=float) (assistant:=assistant)) :
  StockDataAgent.__init__ rt environ makedirs AssistantAgent config = Ok self ->
  StockDataProvider.__init__ rt environ makedirs
    (Some match environ !! "ALPHAVANTAGE_API_KEY" with
          | Some key => key
          | None => ""
          end) 3600 "./data/cache"
  = Ok (StockDataAgent.data_provider self).
Proof.
  unfold StockDataAgent.__init__, res_bind.
  destruct (StockDataProvider.__init__ _ _ _ _ _ _) as [p |]; [| discriminate].
  destruct (py_get config "llm_config" VNone); [| discriminate].
  destruct (AssistantAgent _ _ _); [| discriminate].
  now intros [= <-].
Qed.

Lemma no_key_no_primary_call (self : provider) (ticker : string)
    (fs : gmap string file) :
  alpha_vantage_key self = Some "" ->
  Forall (fun e => is_primary e = false)
    (calls_of (get_stock_data rt w self ticker fs)).
Proof.
  intros Hkey.
  assert (Hprimary : _get_alpha_vantage_data rt w self ticker fs
                     = (Ok VNone, fs, []))
    by (unfold _get_alpha_vantage_data; now rewrite Hkey).
  destruct (read_cache_outcome rt w self ticker fs) as (o & t0 & Hread & Ht0 & _).
  assert (Hquiet : Forall (fun e => is_primary e = false) t0)
    by (destruct Ht0 as [-> | ->]; repeat constructor).
  destruct o as [v |].
  - now rewrite (get_stock_data_hit _ _ _ _ _ _ _ Hread).
  - destruct (get_stock_data_live rt w self ticker fs t0 Hread)
      as (d1 & t1 & d2 & t2 & H1 & _ & _ & _ & Ht2 & _ & ->).
    rewrite Hprimary in H1. injection H1 as <- <-.
    apply secondary_is_not_primary in Ht2.
    cbn. destruct (truthy rt d2); cbn.
    + apply Forall_app. split; [assumption |].
      constructor; [reflexivity |].
      apply Forall_app. split; [assumption | repeat constructor].
    + apply Forall_app. split; [assumption |]. now constructor.
Qed.

(** X21: an agent built while the environment has no ALPHAVANTAGE_API_KEY,
    or an empty one, never sends a request to the primary source. *)
Theorem agent_without_key_skips_primary
    (config : value float)
    (self : StockDataAgent.instance (float:=float) (assistant:=assistant))
    (ticker : string) (fs : gmap string file) :
  StockDataAgent.__init__ rt environ makedirs AssistantAgent config = Ok self ->
  environ !! "ALPHAVANTAGE_API_KEY" = None
  \/ environ !! "ALPHAVANTAGE_API_KEY" = Some "" ->
  Forall (fun e => is_primary e = false)
    (calls_of (StockDataAgent.get_stock_data rt w self ticker fs)).
Proof.
  intros Hinit Henv. apply agent_provider in Hinit.
  assert (Hkey : alpha_vantage_key (StockDataAgent.data_provider self)
                 = Some "").
  { unfold StockDataProvider.__init__, res_bind in Hinit.
    destruct (match environ !! "CACHE_DURATION" with
              | Some s => int_of_str rt s
              | None => Ok 3600
              end); [| discriminate].
    destruct (makedirs _); [| discriminate].
    injection Hinit as <-. cbn. destruct Henv as [-> | ->]; reflexivity. }
  destruct (agent_run self ticker fs) as (d & fs' & t & Hrun & ->).
  pose proof (no_key_no_primary_call _ ticker fs Hkey) as Hcalls.
  now rewrite Hrun in Hcalls.
Qed.

Lemma agent_provider_settings
    (config : value float)
    (self : StockDataAgent.instance (float:=float) (assistant:=assistant)) :
  StockDataAgent.__init__ rt environ makedirs AssistantAgent config = Ok self ->
  cache_dir (StockDataAgent.data_provider self)
  = match environ !! "CACHE_DIRECTORY" with
    | Some d => d
    | None => "./data/cache"
    end.
Proof.
  intros Hinit. apply agent_provider in Hinit.
  unfold StockDataProvider.__init__, res_bind in Hinit.
  destruct (match environ !! "CACHE_DURATION" with
            | Some s => int_of_str rt s
            | None => Ok 3600
            end); [| discriminate].
  destruct (makedirs _); [| discriminate].
  now injection Hinit as <-.
Qed.

(** X22: an agent built while the environment has no CACHE_DIRECTORY opens,
    for an ASCII ticker without separator, no file but
    ./data/cache/<ticker in lower case>_data.json. *)
Theorem agent_default_cache_file
    (config : value float)
    (self : StockDataAgent.instance (float:=float) (assistant:=assistant))
    (ticker : string) (fs : gmap string file) :
  StockDataAgent.__init__ rt environ makedirs AssistantAgent config = Ok self ->
  environ !! "CACHE_DIRECTORY" = None ->
  isascii ticker = true ->
  has_sep ticker = false ->
  Forall (fun e => forall path, opened e = Some path ->
            path = ("./data/cache/" ++ lower ticker ++ "_data.json")%string)
    (calls_of (StockDataAgent.get_stock_data rt w self ticker fs)).
Proof.
  intros Hinit Henv _ Hsep.
  pose proof (agent_provider_settings config self Hinit) as Hdir.
  rewrite Henv in Hdir.
  destruct (agent_run self ticker fs) as (d & fs' & t & Hrun & ->).
  pose proof (opens_only_cache_file rt w (StockDataAgent.data_provider self)
                ticker fs) as Hopens.
  rewrite Hrun in Hopens. cbn in *.
  eapply Forall_impl; [exact Hopens |].
  intros e He path Hpath. rewrite (He path Hpath).
  unfold cache_file, path_join.
  rewrite (name_is_relative ticker Hsep), Hdir. reflexivity.
Qed.

(** X23: when CACHE_DURATION is set to a text that [int] does not parse, the
    construction of the provider raises, whatever its arguments, and so does
    the construction of the agent: no object is built. *)
Theorem bad_duration_stops_construction (s : string) (e : exn)
    (key : option string) (duration : Z) (dir : string)
    (config : value float) :
  environ !! "CACHE_DURATION" = Some s ->
  int_of_str rt s = Raise e ->
  StockDataProvider.__init__ rt environ makedirs key duration dir = Raise e
  /\ StockDataAgent.__init__ rt environ makedirs AssistantAgent config
     = Raise e.
Proof.
  intros Henv Hint.
  assert (Hinit : forall key duration dir,
            StockDataProvider.__init__ rt environ makedirs key duration dir
            = Raise e).
  { intros. unfold StockDataProvider.__init__, res_bind.
    now rewrite Henv, Hint. }
  split; [apply Hinit |].
  unfold StockDataAgent.__init__, res_bind. now rewrite Hinit.
Qed.

End AgentCoverage.

(** * Authentication *)

Lemma space_is_not (c d : ascii) :
  is_space c = false -> is_space d = true -> Ascii.eqb d c = false.
Proof.
  intros Hc Hd. destruct (Ascii.eqb_spec d c) as [-> |]; congruence.
Qed.

Lemma contains_lstrip (c : ascii) (s : string) :
  is_space c = false -> contains c (lstrip s) = contains c s.
Proof.
  intros Hc. induction s as [| d s IH]; cbn; [reflexivity |].
  destruct (is_space d) eqn:Hd; [| reflexivity].
  now rewrite (space_is_not c d Hc Hd), IH.
Qed.

Lemma contains_rstrip (c : ascii) (s : string) :
  is_space c = false -> contains c (rstrip s) = contains c s.
Proof.
  intros Hc. induction s as [| d s IH]; cbn; [reflexivity |].
  destruct (rstrip s) as [| d' r] eqn:Hr.
  - rewrite <- IH. cbn.
    destruct (is_space d) eqn:Hd; cbn.
    + now rewrite (space_is_not c d Hc Hd).
    + reflexivity.
  - cbn in *. now rewrite IH.
Qed.

Lemma contains_strip (c : ascii) (s : string) :
  is_space c = false -> contains c (strip s) = contains c s.
Proof.
  intros Hc. unfold strip. now rewrite contains_rstrip, contains_lstrip.
Qed.

(** A string that has the separator is cut in two at the first one. *)
Lemma split_once_cuts (sep : ascii) (s : string) :
  contains sep s = true ->
  exists a b, split_once sep s = [a; b]
              /\ contains sep a = false
              /\ s = (a ++ String sep b)%string.
Proof.
  induction s as [| c s IH]; cbn; [discriminate |].
  destruct (Ascii.eqb_spec c sep) as [-> | Hne]; cbn.
  - intros _. exists EmptyString, s. auto.
  - intros Hs. destruct (IH Hs) as (a & b & -> & Ha & ->).
    exists (String c a), b. repeat split; cbn.
    + apply Ascii.eqb_neq in Hne. now rewrite Hne.
Qed.

(** The loop over the pairs never raises. *)
Lemma load_pairs_returns (pairs : list string) (items : list (string * string)) :
  exists items', AuthManager.load_pairs pairs items = Ok items'.
Proof.
  revert items. induction pairs as [| cred_pair pairs IH]; intros items; cbn.
  - eauto.
  - destruct (contains ":" cred_pair) eqn:Hcolon; cbn; [| apply IH].
    assert (Hstrip : contains ":" (strip cred_pair) = true)
      by (now rewrite contains_strip).
    destruct (split_once_cuts ":" _ Hstrip) as (a & b & -> & _ & _).
    apply IH.
Qed.

Lemma split_on_pieces (sep c : ascii) (s : string) :
  contains c s = false ->
  Forall (fun piece => contains c piece = false) (split_on sep s).
Proof.
  induction s as [| d s IH]; cbn.
  - intros _. now repeat constructor.
  - intros Hs. apply orb_false_elim in Hs as [Hd Hs]. specialize (IH Hs).
    destruct (Ascii.eqb d sep).
    + now constructor.
    + destruct (split_on sep s) as [| piece pieces].
      * repeat constructor. cbn. now rewrite Hd.
      * inversion IH; subst. constructor; [| assumption].
        cbn. now rewrite Hd.
Qed.

Lemma load_pairs_skips (pairs : list string) (items : list (string * string)) :
  Forall (fun piece => contains ":" piece = false) pairs ->
  AuthManager.load_pairs pairs items = Ok items.
Proof.
  induction 1 as [| piece pairs Hpiece _ IH]; cbn; [reflexivity |].
  now rewrite Hpiece.
Qed.

Lemma split_on_whole (sep : ascii) (s : string) :
  contains sep s = false -> split_on sep s = [s].
Proof.
  induction s as [| c s IH]; cbn; [reflexivity |].
  intros Hs. apply orb_false_elim in Hs as [Hc Hs].
  now rewrite Hc, (IH Hs).
Qed.

Lemma split_once_first (sep : ascii) (a b : string) :
  contains sep a = false ->
  split_once sep (a ++ String sep b) = [a; b].
Proof.
  induction a as [| c a IH]; intros Ha.
  - change (split_once sep (String sep b) = [EmptyString; b]).
    cbn. now rewrite Ascii.eqb_refl.
  - change (split_once sep (String c (a ++ String sep b)) = [String c a; b]).
    cbn in Ha. apply orb_false_elim in Ha as [Hc Ha].
    cbn [split_once]. now rewrite Hc, (IH Ha).
Qed.

Lemma contains_append (sep : ascii) (a b : string) :
  contains sep (a ++ b) = contains sep a || contains sep b.
Proof.
  induction a as [| c a IH]; [reflexivity |].
  change (contains sep (String c (a ++ b))
          = contains sep (String c a) || contains sep b).
  cbn. now rewrite IH, orb_assoc.
Qed.

Section Auth.

Variable environ : gmap string string.

(** X24: with AUTH_ENABLED set to anything but true, 1 or yes (in any letter
    case), no credentials are loaded, every user name and password is
    accepted, and no authentication is handed to the user interface. *)
Theorem disabled_auth_accepts_all (flag username password : string) :
  environ !! "AUTH_ENABLED" = Some flag ->
  lower flag <> "true" ->
  lower flag <> "1" ->
  lower flag <> "yes" ->
  AuthManager.credentials (AuthManager.__init__ environ) = []
  /\ AuthManager.authenticate (AuthManager.__init__ environ) username password
     = true
  /\ AuthManager.get_auth_middleware (AuthManager.__init__ environ) = None.
Proof.
  intros Henv H1 H2 H3.
  unfold AuthManager.__init__, AuthManager.getenv. rewrite Henv.
  apply String.eqb_neq in H1, H2, H3. rewrite H1, H2, H3.
  repeat split.
Qed.

(** X25: reading the credentials never raises, so the default account of the
    handler is never installed: with authentication enabled, the credentials
    are exactly what the loop over the pairs leaves. *)
Theorem credentials_fallback_unreachable :
  AuthManager.auth_enabled (AuthManager.__init__ environ) = true ->
  AuthManager.load_pairs
    (split_on "," (AuthManager.getenv environ "AUTH_CREDENTIALS"
                     "admin:admin123")) []
  = Ok (AuthManager.credentials (AuthManager.__init__ environ)).
Proof.
  unfold AuthManager.__init__. cbn [AuthManager.auth_enabled
    AuthManager.credentials]. intros ->.
  unfold AuthManager._load_credentials. cbn [negb].
  destruct (load_pairs_returns
              (split_on "," (AuthManager.getenv environ "AUTH_CREDENTIALS"
                               "admin:admin123")) []) as [items ->].
  reflexivity.
Qed.

(** X26: with authentication enabled and AUTH_CREDENTIALS set to a text
    without any colon, no account exists: every user name and password is
    refused, the default administrator included. *)
Theorem credentials_without_colon_lock_out (creds username password : string) :
  AuthManager.auth_enabled (AuthManager.__init__ environ) = true ->
  environ !! "AUTH_CREDENTIALS" = Some creds ->
  contains ":" creds = false ->
  AuthManager.credentials (AuthManager.__init__ environ) = []
  /\ AuthManager.authenticate (AuthManager.__init__ environ) username password
     = false.
Proof.
  intros Henabled Henv Hcolon.
  assert (Hcreds : AuthManager.credentials (AuthManager.__init__ environ) = []).
  { unfold AuthManager.__init__ in *.
    cbn [AuthManager.auth_enabled AuthManager.credentials] in *.
    rewrite Henabled. unfold AuthManager._load_credentials. cbn [negb].
    unfold AuthManager.getenv at 1. rewrite Henv.
    now rewrite (load_pairs_skips _ _ (split_on_pieces "," ":" creds Hcolon)). }
  split; [exact Hcreds |].
  unfold AuthManager.authenticate. now rewrite Henabled, Hcreds.
Qed.

(** X27: with neither AUTH_ENABLED nor AUTH_CREDENTIALS in the environment,
    authentication is on and exactly one account is accepted: admin with the
    password admin123. *)
Theorem default_account (username password : string) :
  environ !! "AUTH_ENABLED" = None ->
  environ !! "AUTH_CREDENTIALS" = None ->
  AuthManager.authenticate (AuthManager.__init__ environ) username password
  = true
  <-> username = "admin" /\ password = "admin123".
Proof.
  intros Hflag Hcreds.
  assert (Hinit : AuthManager.__init__ environ
                  = {| AuthManager.auth_enabled := true;
                       AuthManager.credentials := [("admin", "admin123")] |}).
  { unfold AuthManager.__init__, AuthManager._load_credentials,
      AuthManager.getenv.
    rewrite Hflag, Hcreds. vm_compute. reflexivity. }
  rewrite Hinit. unfold AuthManager.authenticate.
  cbn [AuthManager.auth_enabled AuthManager.credentials AuthManager.lookup
         negb].
  destruct (String.eqb_spec "admin" username) as [<- | Hu].
  - destruct (String.eqb_spec "admin123" password) as [<- | Hp]; cbn [negb].
    + tauto.
    + split; [discriminate | intros [_ ?]; congruence].
  - split; [discriminate | intros [? _]; congruence].
Qed.

(** X28: with authentication enabled and AUTH_CREDENTIALS made of one pair
    [user:secret] of ASCII characters, where the user name has no colon, the
    pair no comma and no blank at its ends, exactly that user with that
    password is accepted; the password may contain colons. *)
Theorem single_pair_account (user secret username password : string) :
  AuthManager.auth_enabled (AuthManager.__init__ environ) = true ->
  environ !! "AUTH_CREDENTIALS" = Some (user ++ String ":" secret)%string ->
  isascii (user ++ String ":" secret) = true ->
  contains ":" user = false ->
  contains "," (user ++ String ":" secret) = false ->
  strip (user ++ String ":" secret) = (user ++ String ":" secret)%string ->
  AuthManager.authenticate (AuthManager.__init__ environ) username password
  = true
  <-> username = user /\ password = secret.
Proof.
  intros Henabled Henv _ Huser Hcomma Hstrip.
  assert (Hcreds : AuthManager.credentials (AuthManager.__init__ environ)
                   = [(user, secret)]).
  { unfold AuthManager.__init__ in *.
    cbn [AuthManager.auth_enabled AuthManager.credentials] in *.
    rewrite Henabled. unfold AuthManager._load_credentials. cbn [negb].
    unfold AuthManager.getenv at 1. rewrite Henv.
    rewrite (split_on_whole _ _ Hcomma). cbn [AuthManager.load_pairs].
    rewrite contains_append. cbn [contains]. rewrite Ascii.eqb_refl.
    rewrite orb_true_r. cbn [negb orb].
    now rewrite Hstrip, (split_once_first ":" user secret Huser). }
  unfold AuthManager.authenticate. rewrite Henabled, Hcreds.
  cbn [AuthManager.lookup negb].
  destruct (String.eqb_spec user username) as [<- | Hu].
  - destruct (String.eqb_spec secret password) as [<- | Hp]; cbn [negb].
    + tauto.
    + split; [discriminate | intros [_ ?]; congruence].
  - split; [discriminate | intros [? _]; congruence].
Qed.

End Auth.

(** * The added properties on concrete runs *)

(** The two entries of the demonstration series. *)
Lemma time_series_dates_kept_witness :
  Permutation (map fst series_entries) (map date_of series_prices)
  /\ length series_prices = length series_entries.
Proof.
  apply (time_series_dates_kept (python []) series_entries series_prices).
  vm_compute. reflexivity.
Defined.

(** An entry that is a text makes [values.get] fail. *)
Lemma malformed_entry_discards_series_witness :
  _get_alpha_vantage_data (python []) world_malformed with_key "AAPL" ∅
  = (Ok VNone, ∅, [HttpGet url (series_params "AAPL" "demo")]).
Proof.
  apply (malformed_entry_discards_series (python []) world_malformed with_key
           "AAPL" "demo" malformed_items
           [("2024-01-02", day_entry "185.64" "82488700");
            ("2024-01-03", VStr "n/a")]
           ("2024-01-03", VStr "n/a") AttributeError ∅).
  - reflexivity.
  - discriminate.
  - reflexivity.
  - intros [[v H] | [[v H] | [v H]]]; vm_compute in H; discriminate H.
  - reflexivity.
  - right. left. reflexivity.
  - reflexivity.
Defined.

(** Status 204. *)
Lemma other_status_fails_witness :
  _get_alpha_vantage_data (python []) world_no_content with_key "AAPL" ∅
  = (Ok VNone, ∅, [HttpGet url (series_params "AAPL" "demo")]).
Proof.
  apply (other_status_fails (python []) world_no_content with_key "AAPL" "demo"
           204 (Raise JSONDecodeError) ∅).
  - reflexivity.
  - discriminate.
  - reflexivity.
  - discriminate.
Defined.

(** A body that is a JSON list. *)
Lemma body_not_an_object_fails_witness :
  _get_alpha_vantage_data (python []) world_list_body with_key "AAPL" ∅
  = (Ok VNone, ∅, [HttpGet url (series_params "AAPL" "demo")]).
Proof.
  apply (body_not_an_object_fails (python []) world_list_body with_key "AAPL"
           "demo" (Ok (VList [VStr "busy"])) ∅).
  - reflexivity.
  - discriminate.
  - reflexivity.
  - intros items. discriminate.
Defined.

(** The overview request gets no response. *)
Lemma lost_overview_discards_prices_witness :
  _get_alpha_vantage_data (python []) world_overview_lost with_key "AAPL" ∅
  = (Ok VNone, ∅, [HttpGet url (series_params "AAPL" "demo");
                   HttpGet url (overview_params "AAPL" "demo")]).
Proof.
  apply (lost_overview_discards_prices (python []) world_overview_lost with_key
           "AAPL" "demo" (VStr "2024-01-03") series_prices ∅).
  - reflexivity.
  - discriminate.
  - exists [("Meta Data", VDict [("3. Last Refreshed", VStr "2024-01-03")]);
            ("Time Series (Daily)", VDict series_entries)], (VDict series_entries).
    split; [reflexivity |].
    split; [intros [[v H] | [[v H] | [v H]]]; vm_compute in H; discriminate H |].
    repeat split; vm_compute; reflexivity.
  - left. reflexivity.
Defined.

(** The overview is answered 404. *)
Lemma record_without_company_info_witness :
  _get_alpha_vantage_data (python []) world_primary with_key "AAPL" ∅
  = (Ok (VDict [("ticker", VStr "AAPL"); ("source", VStr "alphavantage");
                ("last_updated", VStr "2024-01-03");
                ("prices", VList series_prices)]),
     ∅, [HttpGet url (series_params "AAPL" "demo");
         HttpGet url (overview_params "AAPL" "demo")]).
Proof.
  apply (record_without_company_info (python []) world_primary with_key
           "AAPL" "demo" (VStr "2024-01-03") series_prices ∅).
  - reflexivity.
  - discriminate.
  - exists [("Meta Data", VDict [("3. Last Refreshed", VStr "2024-01-03")]);
            ("Time Series (Daily)", VDict series_entries)], (VDict series_entries).
    split; [reflexivity |].
    split; [intros [[v H] | [[v H] | [v H]]]; vm_compute in H; discriminate H |].
    repeat split; vm_compute; reflexivity.
  - left. exists 404, (Raise JSONDecodeError). split; [reflexivity | discriminate].
Defined.

(** The overview is answered with an object that has a "Symbol". *)
Lemma record_with_company_info_witness :
  _get_alpha_vantage_data (python []) world_overview with_key "AAPL" ∅
  = (Ok (VDict [("ticker", VStr "AAPL"); ("source", VStr "alphavantage");
                ("last_updated", VStr "2024-01-03");
                ("prices", VList series_prices);
                ("company_info", VDict overview_items)]),
     ∅, [HttpGet url (series_params "AAPL" "demo");
         HttpGet url (overview_params "AAPL" "demo")]).
Proof.
  apply (record_with_company_info (python []) world_overview with_key
           "AAPL" "demo" (VStr "2024-01-03") series_prices overview_items ∅).
  - reflexivity.
  - discriminate.
  - exists [("Meta Data", VDict [("3. Last Refreshed", VStr "2024-01-03")]);
            ("Time Series (Daily)", VDict series_entries)], (VDict series_entries).
    split; [reflexivity |].
    split; [intros [[v H] | [[v H] | [v H]]]; vm_compute in H; discriminate H |].
    repeat split; vm_compute; reflexivity.
  - reflexivity.
  - eexists. reflexivity.
Defined.

(** Yahoo has no row. *)
Lemma empty_history_fails_witness :
  _get_yahoo_finance_data world_down "AAPL" ∅
  = (Ok VNone, ∅, [YfHistory "AAPL" "2y"]).
Proof.
  apply (empty_history_fails world_down "AAPL" ∅). left. reflexivity.
Defined.

(** Yahoo has rows, [stock.info] raises. *)
Lemma lost_info_discards_rows_witness :
  _get_yahoo_finance_data world_no_info "AAPL" ∅
  = (Ok VNone, ∅, [YfHistory "AAPL" "2y"; YfInfo "AAPL"]).
Proof.
  apply (lost_info_discards_rows world_no_info "AAPL" ∅
           (day_bar (ymd 2024 1 2) 185%Q) [day_bar (ymd 2024 1 3) 184%Q]
           KeyError); reflexivity.
Defined.

(** Yahoo's two rows. *)
Lemma yahoo_record_shape_witness :
  exists d company,
    _get_yahoo_finance_data world_yahoo "AAPL" ∅
    = (Ok d, ∅, [YfHistory "AAPL" "2y"; YfInfo "AAPL"])
    /\ record_field d "ticker" = Some (VStr "AAPL")
    /\ record_field d "source" = Some (VStr "yahoo")
    /\ record_field d "last_updated"
       = Some (VStr (strftime_ymd (today world_yahoo)))
    /\ map date_of (prices_of d)
       = map (fun r => strftime_ymd (bar_date r))
           [day_bar (ymd 2024 1 2) 185%Q; day_bar (ymd 2024 1 3) 184%Q]
    /\ record_field d "company_info" = Some (VDict company)
    /\ map fst company
       = ["Symbol"; "Name"; "Description"; "Exchange"; "Industry"; "Sector";
          "MarketCapitalization"; "PERatio"; "DividendYield"]
    /\ assoc "Symbol" company = Some (VStr "AAPL").
Proof.
  apply (yahoo_record_shape world_yahoo "AAPL" ∅
           (day_bar (ymd 2024 1 2) 185%Q) [day_bar (ymd 2024 1 3) 184%Q]
           [("shortName", VStr "Apple Inc.")]); reflexivity.
Defined.

(** A cache file whose age is exactly the duration of 3600 s. *)
Lemma stale_cache_not_opened_witness :
  get_stock_data (python []) world_primary with_key "AAPL"
    (disk 1400 (show cached_record))
  = live_fetch (python []) world_primary with_key "AAPL"
      (disk 1400 (show cached_record))
  /\ Forall (fun e => is_read e = false)
       (calls_of (get_stock_data (python []) world_primary with_key "AAPL"
                    (disk 1400 (show cached_record)))).
Proof.
  apply (stale_cache_not_opened (python []) world_primary with_key "AAPL"
           (disk 1400 (show cached_record))).
  intros f Hf. vm_compute in Hf. injection Hf as <-.
  unfold Qle. vm_compute. discriminate.
Defined.

(** A fresh cache file whose text is cut short. *)
Lemma unreadable_cache_falls_through_witness :
  get_stock_data (python []) world_primary with_key "AAPL"
    (disk 4000 "{ticker")
  = (result_of (live_fetch (python []) world_primary with_key "AAPL"
                  (disk 4000 "{ticker")),
     files_of (live_fetch (python []) world_primary with_key "AAPL"
                 (disk 4000 "{ticker")),
     OpenRead (cache_file with_key "AAPL")
     :: calls_of (live_fetch (python []) world_primary with_key "AAPL"
                    (disk 4000 "{ticker"))).
Proof.
  apply (unreadable_cache_falls_through (python []) world_primary with_key
           "AAPL" (disk 4000 "{ticker")
           {| mtime := 4000; content := "{ticker" |} JSONDecodeError).
  - split; [reflexivity |]. unfold Qlt. vm_compute. reflexivity.
  - reflexivity.
Defined.


Lemma cache_file_under_directory_witness :
  String.prefix (cache_dir with_key) (cache_file with_key "AAPL") = true.
Proof.
  apply (cache_file_under_directory with_key "AAPL"). reflexivity.
Defined.

(** AAPL and MSFT. *)
Lemma tickers_do_not_share_cache_witness :
  cache_file with_key "AAPL" <> cache_file with_key "MSFT"
  /\ files_of (get_stock_data (python []) world_yahoo with_key "AAPL" ∅)
     !! cache_file with_key "MSFT"
     = (∅ : gmap string file) !! cache_file with_key "MSFT".
Proof.
  apply (tickers_do_not_share_cache (python []) world_yahoo with_key
           "AAPL" "MSFT" ∅).
  - reflexivity.
  - reflexivity.
  - reflexivity.
  - reflexivity.
  - vm_compute. discriminate.
Defined.

(** A call that writes Yahoo's record, and a call half an hour later while
    every source is down. *)
Lemma second_call_served_from_cache_witness :
  get_stock_data (python [yahoo_record]) world_later without_key "AAPL"
    (files_of (get_stock_data (python [yahoo_record]) world_yahoo without_key
                 "AAPL" ∅))
  = (Ok yahoo_record,
     files_of (get_stock_data (python [yahoo_record]) world_yahoo without_key
                 "AAPL" ∅),
     [OpenRead (cache_file without_key "AAPL")]).
Proof.
  apply (second_call_served_from_cache (python [yahoo_record]) world_yahoo
           without_key world_later "AAPL" ∅ yahoo_record (show yahoo_record)).
  - intros v (f & [Hf _] & _). discriminate Hf.
  - vm_compute. reflexivity.
  - reflexivity.
  - repeat split; reflexivity.
  - vm_compute. reflexivity.
  - reflexivity.
  - unfold Qlt. vm_compute. reflexivity.
Defined.

(** A fresh cache file that holds an empty object. *)
Lemma falsy_cache_blocks_agent_witness :
  StockDataAgent.get_stock_data (python [VDict []]) world_primary
    agent_with_key "AAPL" (disk 4000 (show (VDict [])))
  = (Ok VNone, disk 4000 (show (VDict [])),
     [OpenRead (cache_file with_key "AAPL")]).
Proof.
  apply (falsy_cache_blocks_agent (python [VDict []]) world_primary
           agent_with_key "AAPL" (disk 4000 (show (VDict [])))
           {| mtime := 4000; content := show (VDict []) |} (VDict [])).
  - split; [reflexivity |]. unfold Qlt. vm_compute. reflexivity.
  - reflexivity.
  - vm_compute. reflexivity.
  - reflexivity.
Defined.

(** The agent built in an empty environment. *)
Lemma agent_without_key_skips_primary_witness :
  Forall (fun e => is_primary e = false)
    (calls_of (StockDataAgent.get_stock_data (python []) world_primary
                 built_agent "AAPL" ∅)).
Proof.
  apply (agent_without_key_skips_primary (python []) world_primary ∅ makes_any
           any_assistant (VDict []) built_agent "AAPL" ∅).
  - vm_compute. reflexivity.
  - left. reflexivity.
Defined.

Lemma agent_default_cache_file_witness :
  Forall (fun e => forall path, opened e = Some path ->
            path = ("./data/cache/" ++ lower "AAPL" ++ "_data.json")%string)
    (calls_of (StockDataAgent.get_stock_data (python []) world_primary
                 built_agent "AAPL" ∅)).
Proof.
  apply (agent_default_cache_file (python []) world_primary ∅ makes_any
           any_assistant (VDict []) built_agent "AAPL" ∅).
  - vm_compute. reflexivity.
  - reflexivity.
  - reflexivity.
  - reflexivity.
Defined.

(** CACHE_DURATION set to 1h. *)
Lemma bad_duration_stops_construction_witness :
  StockDataProvider.__init__ (python []) {[ "CACHE_DURATION" := "1h" ]}
    makes_any (Some "demo") 3600 "./data/cache"
  = Raise ValueError
  /\ StockDataAgent.__init__ (python []) {[ "CACHE_DURATION" := "1h" ]}
       makes_any any_assistant (VDict [])
     = Raise ValueError.
Proof.
  apply (bad_duration_stops_construction (python [])
           {[ "CACHE_DURATION" := "1h" ]} makes_any any_assistant "1h"
           ValueError (Some "demo") 3600 "./data/cache" (VDict [])).
  - reflexivity.
  - reflexivity.
Defined.

(** AUTH_ENABLED set to off. *)
Lemma disabled_auth_accepts_all_witness :
  AuthManager.credentials (AuthManager.__init__ {[ "AUTH_ENABLED" := "off" ]})
  = []
  /\ AuthManager.authenticate
       (AuthManager.__init__ {[ "AUTH_ENABLED" := "off" ]}) "anyone" "anything"
     = true
  /\ AuthManager.get_auth_middleware
       (AuthManager.__init__ {[ "AUTH_ENABLED" := "off" ]})
     = None.
Proof.
  apply (disabled_auth_accepts_all {[ "AUTH_ENABLED" := "off" ]} "off"
           "anyone" "anything").
  - reflexivity.
  - vm_compute. discriminate.
  - vm_compute. discriminate.
  - vm_compute. discriminate.
Defined.

(** The default settings. *)
Lemma credentials_fallback_unreachable_witness :
  AuthManager.load_pairs
    (split_on "," (AuthManager.getenv ∅ "AUTH_CREDENTIALS" "admin:admin123"))
    []
  = Ok (AuthManager.credentials (AuthManager.__init__ ∅)).
Proof.
  apply (credentials_fallback_unreachable ∅). vm_compute. reflexivity.
Defined.

(** AUTH_CREDENTIALS set to a text with an equals sign for a colon. *)
Lemma credentials_without_colon_lock_out_witness :
  AuthManager.credentials
    (AuthManager.__init__ {[ "AUTH_CREDENTIALS" := "admin=admin123" ]})
  = []
  /\ AuthManager.authenticate
       (AuthManager.__init__ {[ "AUTH_CREDENTIALS" := "admin=admin123" ]})
       "admin" "admin123"
     = false.
Proof.
  apply (credentials_without_colon_lock_out
           {[ "AUTH_CREDENTIALS" := "admin=admin123" ]} "admin=admin123"
           "admin" "admin123").
  - vm_compute. reflexivity.
  - reflexivity.
  - reflexivity.
Defined.

Lemma default_account_witness :
  AuthManager.authenticate (AuthManager.__init__ ∅) "admin" "admin123" = true
  <-> "admin" = "admin" /\ "admin123" = "admin123".
Proof.
  apply (default_account ∅ "admin" "admin123"); reflexivity.
Defined.

(** A password with a colon in it. *)
Lemma single_pair_account_witness :
  AuthManager.authenticate
    (AuthManager.__init__ {[ "AUTH_CREDENTIALS" := "ops:s3:cret" ]})
    "ops" "s3:cret" = true
  <-> "ops" = "ops" /\ "s3:cret" = "s3:cret".
Proof.
  apply (single_pair_account {[ "AUTH_CREDENTIALS" := "ops:s3:cret" ]}
           "ops" "s3:cret" "ops" "s3:cret").
  - vm_compute. reflexivity.
  - reflexivity.
  - reflexivity.
  - reflexivity.
  - reflexivity.
  - reflexivity.
Defined.

(** * The shared cache directory *)

Lemma bind_silent {A B : Type} (m : M A) (k : A -> M B)
    (fs fs1 : gmap string file) (a : A) :
  m fs = (Ok a, fs1, []) -> bind m k fs = k a fs1.
Proof.
  intros H. unfold bind. rewrite H. now destruct (k a fs1) as [[r fs2] t].
Qed.

Lemma bind_raises {A B : Type} (m : M A) (k : A -> M B)
    (fs fs1 : gmap string file) (e : exn) (t : list event) :
  m fs = (Raise e, fs1, t) -> bind m k fs = (Raise e, fs1, t).
Proof. intros H. unfold bind. now rewrite H. Qed.

Section SharedProperties.

Context {float : Type}.
Variable rt : runtime float.
Variable w : world float.
Variable self : provider.

Lemma bind_exists {B : Type} (path : string) (k : bool -> M B)
    (fs : gmap string file) :
  bind (path_exists path) k fs = k (bool_decide (is_Some (fs !! path))) fs.
Proof. now apply bind_silent. Qed.

Lemma bind_getmtime {B : Type} (path : string) (k : Q -> M B)
    (fs : gmap string file) :
  bind (getmtime path) k fs
  = match fs !! path with
    | Some f => k (mtime f) fs
    | None => (Raise OSError, fs, [])
    end.
Proof.
  destruct (fs !! path) as [f |] eqn:Hfile.
  - apply bind_silent. unfold getmtime. now rewrite Hfile.
  - apply bind_raises. unfold getmtime. now rewrite Hfile.
Qed.

Lemma bind_yield {B : Type} (others : gmap string file -> gmap string file)
    (k : unit -> M B) (fs : gmap string file) :
  bind (Shared.yield others) k fs = k tt (others fs).
Proof. now apply bind_silent. Qed.

(** With nothing else touching the directory, the method is the one
    studied so far. *)
Lemma alone_on_the_disk (ticker : string) (fs : gmap string file) :
  Shared.get_stock_data rt w self (fun fs => fs) ticker fs
  = get_stock_data rt w self ticker fs.
Proof.
  assert (Hread : forall fs, Shared.read_cache rt w self (fun fs => fs) ticker fs
                             = read_cache rt w self ticker fs).
  { intros fs0. unfold Shared.read_cache, read_cache.
    rewrite !bind_exists.
    destruct (bool_decide (is_Some (fs0 !! cache_file self ticker)));
      [| reflexivity].
    rewrite bind_yield, !bind_getmtime.
    destruct (fs0 !! cache_file self ticker) as [f |]; [| reflexivity].
    destruct (Qlt_le_dec (clock w - mtime f) (inject_Z (cache_duration self)));
      [| reflexivity].
    now rewrite bind_yield. }
  assert (Hlive : forall fs, Shared.live_fetch rt w self (fun fs => fs) ticker fs
                             = live_fetch rt w self ticker fs).
  { intros fs0. unfold Shared.live_fetch, live_fetch.
    unfold bind at 1. unfold bind at 4.
    destruct (_get_alpha_vantage_data rt w self ticker fs0)
      as [[[d1 | e1] fs2] t2]; [| reflexivity].
    unfold bind at 1. unfold bind at 3.
    destruct ((if negb (truthy rt d1) then _get_yahoo_finance_data w ticker
               else ret d1) fs2) as [[[d2 | e2] fs3] t3]; [| reflexivity].
    destruct (truthy rt d2); [| reflexivity].
    unfold bind at 1. unfold bind at 2.
    now rewrite bind_yield. }
  unfold Shared.get_stock_data, get_stock_data, bind.
  rewrite Hread.
  destruct (read_cache rt w self ticker fs) as [[[[v |] | e] fs1] t1];
    try reflexivity.
  fold (bind (Shared.yield (fun fs => fs))
          (fun _ => Shared.live_fetch rt w self (fun fs => fs) ticker) fs1).
  now rewrite bind_yield, Hlive.
Qed.

Variable others : gmap string file -> gmap string file.

(** The sources are asked and the record written without any exception
    reaching the caller, whatever happens to the directory meanwhile. *)
Lemma shared_live_fetch_returns (ticker : string) (fs : gmap string file) :
  exists d fs' t,
    Shared.live_fetch rt w self others ticker fs = (Ok d, fs', t).
Proof.
  destruct (alpha_vantage_outcome rt w self ticker fs) as (d1 & t1 & H1 & _).
  destruct (yahoo_finance_outcome w ticker fs) as (d2 & t2 & H2 & _).
  unfold Shared.live_fetch, bind. rewrite H1.
  destruct (truthy rt d1) eqn:Hd1; cbn; rewrite ?Hd1.
  - unfold Shared.yield. rewrite cache_write_outcome. eauto.
  - rewrite H2. destruct (truthy rt d2) eqn:Hd2; cbn; rewrite ?Hd2.
    + unfold Shared.yield. rewrite cache_write_outcome. eauto.
    + eauto.
Qed.

(** The one exception that reaches the caller: the cache file was there for
    [os.path.exists] and is gone for [os.path.getmtime], which is outside
    every [try].  Then the method raises [OSError] before it asks any source;
    in every other case it returns. *)
Lemma raises_only_at_getmtime (ticker : string) (fs : gmap string file) :
  (is_Some (fs !! cache_file self ticker)
   /\ others fs !! cache_file self ticker = None
   /\ Shared.get_stock_data rt w self others ticker fs
      = (Raise OSError, others fs, []))
  \/ (~ (is_Some (fs !! cache_file self ticker)
         /\ others fs !! cache_file self ticker = None)
      /\ exists d fs' t,
           Shared.get_stock_data rt w self others ticker fs = (Ok d, fs', t)).
Proof.
  unfold Shared.get_stock_data, Shared.read_cache.
  destruct (fs !! cache_file self ticker) as [f |] eqn:Hfile.
  - destruct (others fs !! cache_file self ticker) as [g |] eqn:Hthen.
    + right. split; [intros [_ ?]; discriminate |].
      unfold bind at 1. rewrite bind_exists, Hfile.
      rewrite bool_decide_eq_true_2 by eauto.
      rewrite bind_yield, bind_getmtime, Hthen.
      destruct (Qlt_le_dec (clock w - mtime g) (inject_Z (cache_duration self))).
      * rewrite bind_yield.
        unfold try_except, bind, load_json, ret.
        destruct (others (others fs) !! cache_file self ticker) as [h |].
        -- destruct (can_read w (cache_file self ticker)).
           ++ destruct (json_loads rt (content h)) as [v | e]; cbn.
              ** eauto.
              ** destruct (shared_live_fetch_returns ticker
                             (others (others (others fs))))
                   as (d & fs' & t & ->). eauto.
           ++ cbn.
              destruct (shared_live_fetch_returns ticker
                          (others (others (others fs))))
                as (d & fs' & t & ->). eauto.
        -- cbn.
           destruct (shared_live_fetch_returns ticker
                       (others (others (others fs))))
             as (d & fs' & t & ->). eauto.
      * cbn.
        destruct (shared_live_fetch_returns ticker (others (others fs)))
          as (d & fs' & t & ->). eauto.
    + left. split; [eauto |]. split; [reflexivity |].
      unfold bind at 1. rewrite bind_exists, Hfile.
      rewrite bool_decide_eq_true_2 by eauto.
      now rewrite bind_yield, bind_getmtime, Hthen.
  - right. split; [intros [[? ?] _]; discriminate |].
    unfold bind at 1. rewrite bind_exists, Hfile.
    rewrite bool_decide_eq_false_2 by (intros [? ?]; discriminate).
    cbn.
    destruct (shared_live_fetch_returns ticker (others fs))
      as (d & fs' & t & ->). eauto.
Qed.

End SharedProperties.

(** C5 at the failing input: the cache file of AAPL is fresh and readable,
    and the call alone on the disk returns the record it holds.  When a
    clean-up of another process removes the file after [os.path.exists] has
    seen it, [os.path.getmtime] raises [OSError] outside every [try]: the
    exception reaches the caller, and no source is asked although both would
    answer. *)
Theorem vanished_cache_file_raises :
  get_stock_data (python [cached_record]) world_primary with_key "AAPL"
    (disk 4000 (show cached_record))
  = (Ok cached_record, disk 4000 (show cached_record), [OpenRead aapl_path])
  /\ Shared.get_stock_data (python [cached_record]) world_primary with_key
       cleanup "AAPL" (disk 4000 (show cached_record))
     = (Raise OSError, ∅, [])
  /\ (exists d,
        result_of (get_stock_data (python [cached_record]) world_primary
                     with_key "AAPL" ∅) = Ok d
        /\ is_record d).
Proof.
  split; [vm_compute; reflexivity |].
  split; [vm_compute; reflexivity |].
  eexists. split; [vm_compute; reflexivity |].
  eexists _, _. reflexivity.
Qed.
